(* ===== verification/_CoqProject ===== *)
-Q . S2P
Prelude.v
Frame.v
Clean.v
Text.v
Csv.v
Format.v
Regression.v
Forecast.v
Plot.v
Script.v
