(* ===== verification/Prelude.v ===== *)
(** * Age-Standardized Obesity Analysis: a verified model of src/main.py

    The repository is one Python script, [src/main.py], that runs once
    as a straight line of library calls:

      load     [pd.read_csv("RELAY_WHS.csv")]                 (l. 13)
      show     [df.info()], [df.head()]                       (l. 16-18)
      clean    [dropna], [rename], [astype(int)],
               [astype(float)], [drop_duplicates]             (l. 21-34)
      save     [df.to_csv("cleaned_data.csv", index=False)]   (l. 37-38)
      plot 1   [sns.lineplot] of Year/ObesityRate, savefig    (l. 41-50)
      fit      [LinearRegression().fit(df[["Year"]], y)]      (l. 53-57)
      predict  [model.predict] on the years 2026..2030        (l. 60-61)
      print    [f"{year}: {rate:.2f}%"] per forecast year     (l. 64-66)
      plot 2   actual and forecast series, savefig            (l. 69-78)

    Its state is the DataFrame [df], mutated in place by the cleaning
    calls, the fitted model, the files it reads and writes and what it
    prints.  Every operation is a pandas, csv, seaborn or scikit-learn
    call, so each call is modelled by what that library function does
    on the arguments the script passes, and the calls are composed in
    the order of the script.  Within a stage the mutations of [df] are
    a frame threaded through the [result] error monad (each call takes
    the frame and returns the next one or raises); the script as a
    whole is a step relation over configurations holding the files and
    the console.

    ** Files, modules and what they model

    - [Prelude] (this file): the exceptions the calls raise
      ([KeyError], [ValueError], [IntCastingNaNError], [ParserError],
      [EmptyDataError], [FileNotFoundError], [UnicodeDecodeError]) as
      [exn]; the [result] monad with [x <- c ;; k] in
      [pipeline_scope]; [mapR], the all-or-nothing elementwise map of a
      vectorised cast; the tactics [inv_ok] and [decide_by_compute];
      the [pipeline] hint databases; generic lemmas on [filter],
      [zip_with], sublists, [NoDup] and [mapR].

    - [Frame]: pandas.  [Module Cell]: a value after [read_csv]
      ([NaN], int64, finite float64, string); Python's [int(s)] and
      [float(s)] on decimal text ([parse_int], [parse_float], over a
      [syntax] record: which characters are spaces, whether PEP 515
      underscores are allowed); the casts [astype_int] and
      [astype_float] of one value.  [Module Table]: a DataFrame
      ([frame]: labels and rows) and [dropna] (l. 21), [rename] with
      [main_mapping] (l. 24-27), the lookup [get_loc] behind [df["c"]]
      with its [KeyError], the column cast [astype_column] (l. 30-31),
      and [drop_duplicates] (l. 34) as pandas runs it ([dedup_pass],
      one pass with a table of seen rows) beside its documented meaning
      ([drop_duplicates_spec], [df[~df.duplicated(keep="first")]]).

    - [Clean]: [Module Cleaner], [clean] = l. 21-34 in order, its
      invariant [cleaned] (unique labels with [Year] and [ObesityRate],
      rectangular, no missing value, [Year] int, [ObesityRate] float,
      no duplicate row) and [cast_row], what the two casts do to a row.

    - [Text]: [Module Text], the text layer of the CSV files: [str] of
      an int ([show_int]) and [repr] of a float ([show_float]); Python's
      [csv.writer] with [QUOTE_MINIMAL] ([write_field], [write_row],
      [write_rows]); pandas' C tokenizer as a state machine ([tstate],
      [tok], [step], [finish], [tokenize]) with its [ParserError] on a
      quote left open; the numeral syntax of pandas' type inference
      ([pandas_syntax]).

    - [Csv]: [Module Csv], [to_csv] (l. 37) and [read_csv] (l. 13)
      with its defaults: the header and its renaming of unnamed and
      repeated labels ([label_of], [dedup_names]), the NaN padding of
      short records and the [ParserError] of long ones ([pad_record]),
      the NA tokens ([na_values]) and the per-column choice of int64,
      float64 or object ([infer_dtype], [read_cell]).

    - [Format]: [Module Format], [format(x, ".2f")] ([format_2f],
      rounding half to even) and the lines of l. 64-66
      ([forecast_line], [forecast_output]).

    - [Regression]: [Module OLS], scikit-learn's [LinearRegression]
      for one feature: [fit] rejects an empty sample, centres [X] and
      [y] on their means, takes [slope] from the centred least-squares
      problem (the minimum-norm solution [0] when the centred feature
      is zero), recovers the intercept; [predict].  [least_squares] is
      the abstract specification (minimal [sse] over all lines) and the
      record [Regressor] the interface the forecaster relies on (total
      on non-empty input, least-squares result); [sklearn] implements
      it.

    - [Forecast]: [Module Forecaster]: [samples_of] (l. 53-54, the
      float64 conversion of [X] then [y]), [py_range] and
      [future_years] (l. 60), [forecast] (l. 56-61) against any
      [Regressor], and [run], the script from [dropna] to [predict]
      with [sklearn].

    - [Plot]: [Module Plot], a chart as a [figure] record (title, axis
      labels, labelled lines); [aggregate], the per-year mean seaborn's
      [lineplot] draws with its defaults [estimator="mean"],
      [sort=True]; [trend_figure] (l. 43-49) and [forecast_figure]
      (l. 69-76).

    - [Script]: [Module Script], the whole script.  A [world] holds the
      files (CSV text or a saved figure) and the console; a [config] is
      the program point, the world, [df] and the predictions.  [sstep]
      has one rule per block of l. 13-78 and per way it raises; [next]
      computes it and [script] runs it from the start.

    ** What the theorems show

    - forecasting: [fit] refines the least-squares specification
      ([fit_least_squares]), is the textbook closed form
      ([slope_closed_form]), recovers an exact line
      ([fit_exact_line]), raises only on an empty sample ([fit_Err]),
      and with a single distinct year predicts the mean
      ([fit_single_year]); any least-squares estimator forecasts an
      exact line exactly ([forecast_exact_line]) and returns one
      prediction for each of the years 2026..2030 on every cleaned
      non-empty table ([forecast_returns]); [run] raises at the fit
      exactly when cleaning keeps no row ([run_no_rows]) and otherwise
      forecasts from the cleaned table ([run_succeeds]).
    - cleaning: every successful run establishes [cleaned]
      ([clean_establishes_cleaned]); cleaning is idempotent
      ([clean_idempotent]); its rows are the complete rows, cast, with
      later duplicates removed ([clean_rows]); it raises [KeyError
      "Year"] when the time column is absent and fails on a year that
      is not a numeral; [drop_duplicates]' pass equals its documented
      meaning ([dedup_pass_spec]) and leaves distinct rows
      ([drop_duplicates_distinct]); a column cast rewrites exactly its
      column ([astype_column_effect]); [astype(int)] truncates toward
      zero ([astype_int_truncates]).
    - files: the tokenizer reads back the records [csv.writer] writes
      ([tokenize_write_rows]); [read_csv] reads back a table whose
      columns each hold one type from what [to_csv] writes
      ([read_csv_to_csv]), makes rectangular frames with unique labels
      ([read_csv_wf]) and raises on a record longer than the header
      ([read_csv_long_record]).
    - printing and charts: the [.2f] rounding is to nearest, ties to
      even ([round_half_even_spec]), and the printed number reads back
      within half a hundredth ([format_2f_close]); the charted line is
      one point per distinct year, increasing, at the year's mean
      ([aggregate_spec]).
    - the script: every run ends within eight steps and is determined
      by the initial world ([script_terminates]); no step writes the
      input file and the console only grows ([script_preserves_input]);
      when cleaning keeps no row the run raises at the fit after saving
      the cleaned file and the trend chart ([script_no_rows]); otherwise
      it prints the forecast lines and writes the three outputs
      ([script_forecasts]).

    ** Numbers, fuel

    Years are [Z] (pandas int64; the years of the data are far from
    the 64-bit bounds, so wrap-around does not arise, and a
    float-to-int cast out of range is not modelled).  Floats are exact
    rationals [Q]: the model computes the real value of what the
    program evaluates in binary floating point, so rounding is not
    modelled and the theorems' equalities are exact ([Qeq]).  Floats
    kept in cells are reduced ([Qred]), so that Leibniz equality of
    cells is numeric equality, which [drop_duplicates] compares.
    Three definitions use fuel, each with a bound proved enough: the
    digit count of [show_int] runs [log2 v + 1] rounds (a number below
    [2^(k+1)] has at most [k+1] digits); the fractional digit count of
    [show_float] tries [size d + 1] exponents (for [d = 2^a 5^b],
    [max a b] is below the bit length of [d]); [dedup_names] runs
    [length names + 1] rounds per label (each round skips a label
    already taken, and there are fewer than that).  The script's
    interpreter [script] runs eight steps, one per block, and
    [script_terminates] shows every run is final by then.  Every
    definition is executable.

    ** Not modelled

    - the text pandas renders for [df.info()] and [df.head()] (the
      model records which frame is summarised and shown, not the
      characters);
    - the charts' pixels, colours, markers and size, and the confidence
      band seaborn bootstraps with a random seed; [plt.show()] and
      [plt.legend()] after [savefig] do not change the saved files;
    - [read_csv]'s bool dtype, [inf]/[nan] spellings other than its NA
      tokens, encodings other than ASCII text, int64 overflow, and the
      implicit index; [repr] of floats in exponent form (below [1e-4]
      or from [1e16] on);
    - duplicate labels after [rename]: [get_loc] returns the first
      match, where pandas returns a frame; the theorems that need the
      renamed labels unique assume it;
    - [astype(int)] on a NaN in an object column raises [ValueError]
      in pandas; the model raises [IntCastingNaNError] for every NaN.
*)

From Stdlib Require Import String.
From stdpp Require Import base list.

(** ** Errors raised by the library calls *)

Inductive exn : Type :=
| KeyError (key : string)
| ValueError (what : string)
| IntCastingNaNError
| ParserError (what : string)
| EmptyDataError (what : string)
| FileNotFoundError (what : string)
| UnicodeDecodeError.

(** A computation of the script either returns a value or raises. *)
Inductive result (A : Type) : Type :=
| Ok (a : A)
| Err (e : exn).
Arguments Ok {A} a.
Arguments Err {A} e.

Definition rbind {A B} (c : result A) (k : A -> result B) : result B :=
  match c with
  | Ok a => k a
  | Err e => Err e
  end.

Definition rmap {A B} (f : A -> B) (c : result A) : result B :=
  rbind c (fun a => Ok (f a)).

Declare Scope pipeline_scope.
Delimit Scope pipeline_scope with pipe.
Notation "x <- c ;; k" := (rbind c (fun x => k))
  (at level 100, c at next level, right associativity) : pipeline_scope.
Notation "'ret' x" := (Ok x) (at level 10) : pipeline_scope.

(** [mapR f l] applies a fallible [f] to every element in order and
    raises the first error, as a vectorised cast does. *)
Fixpoint mapR {A B} (f : A -> result B) (l : list A) : result (list B) :=
  match l with
  | [] => Ok []
  | x :: xs =>
      rbind (f x) (fun y => rbind (mapR f xs) (fun ys => Ok (y :: ys)))
  end.

Definition is_ok {A} (c : result A) : bool :=
  match c with Ok _ => true | Err _ => false end.

Create HintDb pipeline discriminated.

(** Prove a decidable proposition about concrete data by computing
    its decision procedure. *)
Ltac decide_by_compute P := apply (bool_decide_eq_true_1 P); vm_compute; reflexivity.
Create Rewrite HintDb pipeline_rw.

(** ** Lemmas on the result monad *)

Lemma rbind_Ok {A B} (c : result A) (k : A -> result B) v :
  rbind c k = Ok v <-> exists a, c = Ok a /\ k a = Ok v.
Proof.
  destruct c as [a|e]; simpl; split.
  - eauto.
  - intros (a' & [= ->] & H); exact H.
  - discriminate.
  - intros (a' & ? & _); discriminate.
Qed.

Lemma rbind_Err {A B} (c : result A) (k : A -> result B) e :
  rbind c k = Err e <-> c = Err e \/ exists a, c = Ok a /\ k a = Err e.
Proof.
  destruct c as [a|e']; simpl; split.
  - eauto.
  - intros [H | (a' & [= ->] & H)]; [discriminate | exact H].
  - intros [= ->]; auto.
  - intros [[= ->] | (a' & H & _)]; [done | discriminate].
Qed.

(** Destruct every [rbind ... = Ok _] hypothesis into its two steps. *)
Ltac inv_ok :=
  repeat match goal with
  | H : rbind _ _ = Ok _ |- _ =>
      apply rbind_Ok in H; destruct H as (? & ? & H)
  | H : Ok _ = Ok _ |- _ => injection H as H; subst
  | H : Ok _ = Err _ |- _ => discriminate H
  | H : Err _ = Ok _ |- _ => discriminate H
  end.

Section MapR.
Context {A B : Type} (f : A -> result B).

Lemma mapR_Ok_Forall2 l ys :
  mapR f l = Ok ys <-> Forall2 (fun x y => f x = Ok y) l ys.
Proof.
  revert ys; induction l as [|x l IH]; intros ys; simpl.
  - split; [intros [= <-]; constructor | intros H; inversion H; done].
  - split.
    + intros H; inv_ok. constructor; [done | by apply IH].
    + intros H; inversion H as [|? y ? ys' Hy Hys]; subst.
      rewrite Hy; simpl. apply IH in Hys. by rewrite Hys.
Qed.

Lemma mapR_Ok_length l ys : mapR f l = Ok ys -> length ys = length l.
Proof. intros H. apply mapR_Ok_Forall2, Forall2_length in H. done. Qed.

(** [mapR] succeeds iff every element succeeds. *)
Lemma mapR_is_ok l :
  is_ok (mapR f l) = true <-> Forall (fun x => is_ok (f x) = true) l.
Proof.
  induction l as [|x l IH]; simpl; [split; auto|].
  rewrite Forall_cons, <- IH.
  destruct (f x); simpl; [|split; [discriminate|intros []; discriminate]].
  destruct (mapR f l); simpl; intuition.
Qed.

(** An error of [mapR] is the error of one of the elements. *)
Lemma mapR_Err_elem l e :
  mapR f l = Err e -> exists x, x ∈ l /\ f x = Err e.
Proof.
  induction l as [|x l IH]; simpl; [discriminate|].
  destruct (f x) eqn:Hx; simpl.
  - destruct (mapR f l); simpl; [discriminate|].
    intros [= ->]. destruct IH as (y & ? & ?); [done|].
    exists y. split; [by apply elem_of_cons; right|done].
  - intros [= ->]. exists x. split; [apply elem_of_cons; auto|done].
Qed.
End MapR.

(** ** Lemmas on [filter] shared by the cleaning stage *)

Section FilterFacts.
Context {A : Type}.
Implicit Types (p : A -> bool) (l : list A).

Lemma filter_all_true p l :
  Forall (fun x => p x = true) l -> List.filter p l = l.
Proof. induction 1; simpl; [done|]. by rewrite H, IHForall. Qed.

Lemma filter_Forall_true p l : Forall (fun x => p x = true) (List.filter p l).
Proof.
  induction l as [|x l IH]; simpl; [constructor|].
  destruct (p x) eqn:?; [constructor|]; done.
Qed.

Lemma filter_idem p l : List.filter p (List.filter p l) = List.filter p l.
Proof. apply filter_all_true, filter_Forall_true. Qed.

Lemma filter_sublist p l : sublist (List.filter p l) l.
Proof.
  induction l as [|x l IH]; simpl; [constructor|].
  destruct (p x); [by apply sublist_skip | by apply sublist_cons].
Qed.
End FilterFacts.

#[export] Hint Resolve filter_Forall_true filter_sublist : pipeline.
#[export] Hint Rewrite @filter_idem : pipeline_rw.

(** ** Lemmas on lists shared by the components *)

(** A property of each pair of a [zip_with] follows from the relation
    that holds between the two lists. *)
Lemma Forall_zip_with_Forall2 {A B C} (R : A -> B -> Prop) (P : A -> Prop)
    (Q : C -> Prop) (f : A -> B -> C) l1 l2 :
  Forall2 R l1 l2 -> (forall x y, R x y -> P x -> Q (f x y)) ->
  Forall P l1 -> Forall Q (zip_with f l1 l2).
Proof.
  intros H2 Himp; induction H2 as [|x y l1 l2 Hxy _ IH]; intros HP; simpl; [constructor|].
  inversion HP; subst. constructor; [by apply Himp | by apply IH].
Qed.

(** [mapR] returns its argument when every element is a fixed point. *)
Lemma mapR_id {A} (f : A -> result A) l :
  Forall (fun x => f x = Ok x) l -> mapR f l = Ok l.
Proof. induction 1 as [|x l Hx _ IH]; simpl; [done|]. by rewrite Hx; simpl; rewrite IH. Qed.

Lemma Forall_of_sublist {A} (P : A -> Prop) l1 l2 :
  sublist l1 l2 -> Forall P l2 -> Forall P l1.
Proof.
  intros Hs%sublist_subseteq H. rewrite Forall_forall in H |- *. intros x Hx.
  apply H, Hs, Hx.
Qed.
#[export] Hint Resolve Forall_of_sublist : pipeline.

(** [mapR] returns when every element does. *)
Lemma mapR_Ok_exists {A B} (f : A -> result B) l :
  Forall (fun x => is_ok (f x) = true) l -> exists ys, mapR f l = Ok ys.
Proof.
  intros H%mapR_is_ok. destruct (mapR f l) as [ys|]; [by exists ys | discriminate].
Qed.


(** Unique images have unique antecedents. *)
Lemma NoDup_map_inv_l {A B} (f : A -> B) l : NoDup (map f l) -> NoDup l.
Proof.
  induction l as [|x l IH]; cbn; intros H; [constructor|].
  apply NoDup_cons in H as [Hn H]. constructor; [|auto].
  intros Hx. apply Hn, list_elem_of_In, in_map, list_elem_of_In, Hx.
Qed.
