(* ===== verification/Frame.v ===== *)
(** * The pandas data model of src/main.py

    [Module Cell]: one value of a DataFrame after [pd.read_csv] and the
    casts [astype(int)] / [astype(float)] that src/main.py l. 30-31
    apply to a column, with Python's [int(str)] and [float(str)] on the
    decimal forms.  [Module Table]: the DataFrame and the cleaning
    primitives [dropna] (l. 21), [rename] (l. 24-27), column access and
    assignment (l. 30-31) and [drop_duplicates] (l. 34). *)

From Stdlib Require Import String Ascii ZArith QArith Qcanon.
From stdpp Require Import base list decidable strings.
From S2P Require Import Prelude.

Local Open Scope Z_scope.

Module Cell.

(** A cell: a missing value ([NaN], which is what [read_csv] puts for
    an empty field), an int64, a finite float64 (as an exact
    rational, see the header of [Prelude]) or a Python string. *)
Inductive cell : Type :=
| NaN
| Int (z : Z)
| Float (q : Q)
| Str (s : string).

#[export] Instance Q_eq_dec : EqDecision Q.
Proof. intros [a b] [c d]; unfold Decision; decide equality; apply decide; apply _. Defined.

#[export] Instance cell_eq_dec : EqDecision cell.
Proof. solve_decision. Defined.

Definition is_nan (c : cell) : bool :=
  match c with NaN => true | _ => false end.

(** A float is stored reduced, so that two cells are equal exactly
    when they hold the same number: [drop_duplicates] compares
    floats by value. *)
Definition cell_wf (c : cell) : Prop :=
  match c with Float q => Qred q = q | _ => True end.

#[export] Instance cell_wf_dec c : Decision (cell_wf c).
Proof. destruct c; simpl; apply _. Defined.

(** *** Python's [int(s)] and [float(s)] on decimal text *)

(** A numeral syntax: which characters [strip] removes around the
    text, and whether one underscore may stand between two digits. *)
Record syntax : Type := mkSyntax {
  sx_space : ascii -> bool;
  sx_underscores : bool
}.

(** [str.isspace] on the ASCII range: tab to carriage return, the
    four separators [\x1c]-[\x1f] and the space.  [int] and [float]
    first turn every Unicode space into [' '], then strip. *)
Definition is_space (c : ascii) : bool :=
  match nat_of_ascii c with 9 | 10 | 11 | 12 | 13 | 28 | 29 | 30 | 31 | 32 => true | _ => false end%nat.

(** Python's [int(s)] and [float(s)] (PEP 515 underscores allowed). *)
Definition python_syntax : syntax := mkSyntax is_space true.

Fixpoint lstrip (sp : ascii -> bool) (l : list ascii) : list ascii :=
  match l with
  | c :: r => if sp c then lstrip sp r else l
  | [] => []
  end.

(** [s.strip()] with the syntax's spaces. *)
Definition strip (sp : ascii -> bool) (l : list ascii) : list ascii :=
  rev (lstrip sp (rev (lstrip sp l))).

Definition digit_val (c : ascii) : option Z :=
  let n := nat_of_ascii c in
  if (48 <=? n)%nat && (n <=? 57)%nat then Some (Z.of_nat (n - 48)) else None.

(** Read the longest run of digits, returning the value accumulated
    onto [acc], the number of digits read and the rest.  With [us], as
    in a Python literal (PEP 515), one underscore may stand between two
    digits of the run: ["2_019"] reads as [2019], while a leading,
    trailing or doubled underscore ends the run. *)
Fixpoint scan_digits (us : bool) (l : list ascii) (acc : Z) (n : nat) : Z * nat * list ascii :=
  match l with
  | c :: r =>
      match digit_val c with
      | Some d => scan_digits us r (10 * acc + d) (S n)
      | None =>
          match n, r with
          | S _, c' :: r' =>
              if us && (c =? "_")%char then
                match digit_val c' with
                | Some d => scan_digits us r' (10 * acc + d) (S n)
                | None => (acc, n, l)
                end
              else (acc, n, l)
          | _, _ => (acc, n, l)
          end
      end
  | [] => (acc, n, [])
  end.

(** An optional sign: [-1], [1] and the rest. *)
Definition scan_sign (l : list ascii) : Z * list ascii :=
  match l with
  | "-"%char :: r => (-1, r)
  | "+"%char :: r => (1, r)
  | _ => (1, l)
  end.

(** An integer numeral: optional sign, one digit at least, nothing
    else between the spaces. *)
Definition parse_int_with (sx : syntax) (s : string) : option Z :=
  let '(sg, l) := scan_sign (strip (sx_space sx) (list_ascii_of_string s)) in
  match scan_digits (sx_underscores sx) l 0 0 with
  | (v, S _, []) => Some (sg * v)
  | _ => None
  end.

(** The exponent part of a float literal, [e] or [E] then an
    integer; absent means [0]. *)
Definition parse_exponent (us : bool) (l : list ascii) : option Z :=
  match l with
  | [] => Some 0
  | e :: r =>
      if (e =? "e")%char || (e =? "E")%char then
        let '(sg, l') := scan_sign r in
        match scan_digits us l' 0 0 with
        | (v, S _, []) => Some (sg * v)
        | _ => None
        end
      else None
  end.

(** [m * 10^k] as a rational, for an integer [k] of either sign. *)
Definition scale10 (m k : Z) : Q :=
  if 0 <=? k then inject_Z (m * 10 ^ k) else (m # Z.to_pos (10 ^ (- k))).

(** A decimal float numeral: optional sign, digits with an optional
    decimal point (one digit at least on either side), optional
    exponent; its exact value, reduced. *)
Definition parse_float_with (sx : syntax) (s : string) : option Q :=
  let us := sx_underscores sx in
  let '(sg, l) := scan_sign (strip (sx_space sx) (list_ascii_of_string s)) in
  let '(ip, ni, l1) := scan_digits us l 0 0 in
  let '(m, nf, l2) :=
    match l1 with
    | "."%char :: r => scan_digits us r ip 0
    | _ => (ip, 0%nat, l1)
    end in
  if (ni + nf =? 0)%nat then None
  else match parse_exponent us l2 with
       | Some ex => Some (Qred (scale10 (sg * m) (ex - Z.of_nat nf)))
       | None => None
       end.

(** [int(s)]. *)
Definition parse_int (s : string) : option Z := parse_int_with python_syntax s.

(** [float(s)] on finite decimal numerals. *)
Definition parse_float (s : string) : option Q := parse_float_with python_syntax s.

(** *** The casts of one cell *)

(** [astype(int)]: a float is truncated toward zero (NumPy's cast);
    a missing value raises [IntCastingNaNError]; a string goes
    through [int]. *)
Definition astype_int (c : cell) : result cell :=
  match c with
  | NaN => Err IntCastingNaNError
  | Int z => Ok (Int z)
  | Float q => Ok (Int (Z.quot (Qnum q) (Zpos (Qden q))))
  | Str s =>
      match parse_int s with
      | Some z => Ok (Int z)
      | None => Err (ValueError s)
      end
  end.

(** [astype(float)]: a missing value stays missing. *)
Definition astype_float (c : cell) : result cell :=
  match c with
  | NaN => Ok NaN
  | Int z => Ok (Float (inject_Z z))
  | Float q => Ok (Float q)
  | Str s =>
      match parse_float s with
      | Some q => Ok (Float q)
      | None => Err (ValueError s)
      end
  end.

Definition is_int (c : cell) : bool :=
  match c with Int _ => true | _ => false end.
Definition is_float (c : cell) : bool :=
  match c with Float _ => true | _ => false end.

(** ** Facts about cells and casts *)

Lemma Qred_inject_Z (z : Z) : Qred (inject_Z z) = inject_Z z.
Proof. apply Qred_identity. simpl. apply Z.gcd_1_r. Qed.

Lemma parse_float_with_reduced sx s q : parse_float_with sx s = Some q -> Qred q = q.
Proof.
  unfold parse_float_with. repeat case_match; try discriminate.
  all: intros [= <-]; apply Qred_involutive.
Qed.

(** [astype(int)] yields an int, and leaves an int alone. *)
Lemma astype_int_is_int c c' : astype_int c = Ok c' -> is_int c' = true.
Proof.
  destruct c as [| | |s]; simpl; try discriminate; try (intros [= <-]; done).
  destruct (parse_int s); [intros [= <-]; done | discriminate].
Qed.

Lemma astype_int_id c : is_int c = true -> astype_int c = Ok c.
Proof. by destruct c. Qed.

(** [astype(float)] yields a well-formed float from any present value,
    and leaves a float alone. *)
Lemma astype_float_is_float c c' :
  cell_wf c -> is_nan c = false -> astype_float c = Ok c' ->
  is_float c' = true /\ cell_wf c'.
Proof.
  destruct c as [|z|q|s]; simpl; try discriminate; intros Hwf _.
  - intros [= <-]. split; [done|]. apply Qred_inject_Z.
  - intros [= <-]. done.
  - destruct (parse_float s) eqn:E; [|discriminate]. intros [= <-].
    split; [done|]. by apply (parse_float_with_reduced python_syntax s).
Qed.

Lemma astype_float_id c : is_float c = true -> astype_float c = Ok c.
Proof. by destruct c. Qed.

(** C: [astype(int)] of a float truncates toward zero: the int is the
    largest below a non-negative value and the smallest above a
    non-positive one. *)
Theorem astype_int_truncates q z :
  astype_int (Float q) = Ok (Int z) ->
  ((0 <= q)%Q -> (inject_Z z <= q /\ q < inject_Z z + 1)%Q) /\
  ((q <= 0)%Q -> (inject_Z z - 1 < q /\ q <= inject_Z z)%Q).
Proof.
  simpl. intros [= <-]. destruct q as [n d].
  unfold Qle, Qlt, inject_Z, Qplus, Qminus, Qopp; simpl.
  pose proof (Z.quot_rem' n (Zpos d)) as Hqr.
  pose proof (Z.rem_bound_abs n (Zpos d) ltac:(lia)) as Hb.
  split; intros Hq.
  - pose proof (Z.rem_nonneg n (Zpos d) ltac:(lia) ltac:(lia)).
    rewrite Z.abs_eq in Hb by lia. nia.
  - pose proof (Z.rem_nonpos n (Zpos d) ltac:(lia) ltac:(lia)).
    rewrite Z.abs_neq in Hb by lia. nia.
Qed.

Lemma astype_int_truncates_witness :
  astype_int (Float (40399 # 20)) = Ok (Int 2019) /\
  (inject_Z 2019 <= 40399 # 20 /\ 40399 # 20 < inject_Z 2019 + 1)%Q.
Proof.
  split; [reflexivity|].
  apply (astype_int_truncates (40399 # 20) 2019); [reflexivity|].
  vm_compute. discriminate.
Defined.

End Cell.

Module Table.
Import Cell.

Abbreviation row := (list cell).

(** A DataFrame: its column labels and its rows, in file order (the
    index is not modelled: [to_csv] is called with [index=False] and no
    step of the script reads it). *)
Record frame : Type := mkFrame {
  columns : list string;
  rows : list row
}.

(** What [read_csv] produces and every step keeps: unique labels and
    a rectangular table of well-formed cells. *)
Definition frame_wf (df : frame) : Prop :=
  NoDup (columns df) /\
  Forall (fun r => length r = length (columns df) /\ Forall cell_wf r) (rows df).

#[export] Instance frame_wf_dec df : Decision (frame_wf df).
Proof. unfold frame_wf. apply _. Defined.

Definition has_na (r : row) : bool := existsb is_nan r.

(** l. 21 [df.dropna(inplace=True)]: drop every row with a missing
    value in some column ([axis=0], [how="any"]). *)
Definition dropna (df : frame) : frame :=
  mkFrame (columns df) (List.filter (fun r => negb (has_na r)) (rows df)).

(** [mapping.get(label, label)] for a dict given as its items. *)
Fixpoint rename_label (mapping : list (string * string)) (c : string) : string :=
  match mapping with
  | [] => c
  | (old, new) :: m => if String.eqb c old then new else rename_label m c
  end.

(** l. 24-27 [df.rename(columns=mapping, inplace=True)]: relabel the
    columns; a key that is not a label is ignored. *)
Definition rename (mapping : list (string * string)) (df : frame) : frame :=
  mkFrame (map (rename_label mapping) (columns df)) (rows df).

(** The dict of l. 24-27. *)
Definition main_mapping : list (string * string) :=
  [("DIM_TIME", "Year"); ("RATE_PER_100_N", "ObesityRate")].

Fixpoint index_of (c : string) (cols : list string) : option nat :=
  match cols with
  | [] => None
  | c' :: cs => if String.eqb c c' then Some 0%nat else S <$> index_of c cs
  end.

(** [df.columns.get_loc(c)], which [df[c]] calls: [KeyError] when
    the label is absent. *)
Definition get_loc (df : frame) (c : string) : result nat :=
  match index_of c (columns df) with
  | Some i => Ok i
  | None => Err (KeyError c)
  end.

Definition column_at (df : frame) (i : nat) : list cell :=
  map (fun r => default NaN (r !! i)) (rows df).

(** [df[c]]. *)
Definition get_column (df : frame) (c : string) : result (list cell) :=
  rbind (get_loc df c) (fun i => Ok (column_at df i)).

Definition set_column_at (df : frame) (i : nat) (vals : list cell) : frame :=
  mkFrame (columns df) (zip_with (fun r v => <[i:=v]> r) (rows df) vals).

(** l. 30-31 [df[c] = df[c].astype(t)]: read the column, cast every
    cell (the first failing cell raises), write the column back. *)
Definition astype_column (cast : cell -> result cell) (c : string) (df : frame)
  : result frame :=
  rbind (get_loc df c) (fun i =>
  rbind (mapR cast (column_at df i)) (fun vals =>
  Ok (set_column_at df i vals))).

(** [DataFrame.duplicated(keep="first")], as pandas documents it: row
    [i] is marked when it equals one of the rows before it. *)
Definition duplicated (rs : list row) : list bool :=
  imap (fun i r => bool_decide (r ∈ take i rs)) rs.

Fixpoint mask_out {A} (mask : list bool) (l : list A) : list A :=
  match mask, l with
  | b :: m, x :: xs => if b then mask_out m xs else x :: mask_out m xs
  | _, _ => l
  end.

(** The reference: [df[~df.duplicated()]]. *)
Definition drop_duplicates_spec (rs : list row) : list row :=
  mask_out (duplicated rs) rs.

(** The single pass pandas runs with its hash table of seen rows. *)
Fixpoint dedup_pass (seen : list row) (rs : list row) : list row :=
  match rs with
  | [] => []
  | r :: rs' =>
      if decide (r ∈ seen) then dedup_pass seen rs'
      else r :: dedup_pass (r :: seen) rs'
  end.

(** l. 34 [df.drop_duplicates(inplace=True)]. *)
Definition drop_duplicates (df : frame) : frame :=
  mkFrame (columns df) (dedup_pass [] (rows df)).

(** ** [dropna] *)

(** After [dropna] no row has a missing value, and a row is kept iff
    it was there and is complete. *)
Lemma dropna_no_na df : Forall (fun r => has_na r = false) (rows (dropna df)).
Proof.
  eapply Forall_impl; [apply filter_Forall_true|].
  intros r H. by apply negb_true_iff in H.
Qed.

Lemma elem_of_dropna df r :
  r ∈ rows (dropna df) <-> r ∈ rows df /\ has_na r = false.
Proof. simpl. rewrite !list_elem_of_In, filter_In, negb_true_iff. done. Qed.

Lemma dropna_noop df :
  Forall (fun r => has_na r = false) (rows df) -> dropna df = df.
Proof.
  intros H. destruct df as [cs rs]; unfold dropna; simpl in *. f_equal.
  apply filter_all_true. eapply Forall_impl; [exact H|]. intros r ->. done.
Qed.

(** ** [rename] *)

Lemma rename_label_absent m c : c ∉ map fst m -> rename_label m c = c.
Proof.
  induction m as [|[old new] m IH]; simpl; [done|].
  rewrite not_elem_of_cons. intros [Hne Hm].
  destruct (String.eqb_spec c old); [congruence|]. by apply IH.
Qed.

Lemma rename_noop m df :
  Forall (fun c => c ∉ map fst m) (columns df) -> rename m df = df.
Proof.
  intros H. destruct df as [cs rs]; unfold rename; simpl in *. f_equal.
  induction H as [|c cs Hc _ IH]; simpl; [done|].
  by rewrite rename_label_absent, IH.
Qed.

(** ** Column access *)

Lemma index_of_Some c cols i :
  index_of c cols = Some i <->
  cols !! i = Some c /\ forall j, (j < i)%nat -> cols !! j <> Some c.
Proof.
  revert i; induction cols as [|c' cols IH]; intros i; simpl.
  { split; [discriminate|]. intros [? _]; discriminate. }
  destruct (String.eqb_spec c c') as [->|Hne].
  - split.
    + intros [= <-]. split; [done|]. intros j Hj; lia.
    + intros [Hi Hlt]. destruct i as [|i]; [done|].
      exfalso. by apply (Hlt 0%nat); [lia|].
  - split.
    + destruct (index_of c cols) as [k|]; simpl; [|discriminate]. intros [= <-].
      destruct (proj1 (IH k) eq_refl) as [Hk Hlt]. split; [done|].
      intros [|j] Hj; simpl; [congruence|]. apply Hlt; lia.
    + intros [Hi Hlt]. destruct i as [|i]; simpl in Hi; [congruence|].
      assert (index_of c cols = Some i) as ->; [|done].
      apply IH. split; [done|]. intros j Hj. apply (Hlt (S j)); lia.
Qed.

Lemma index_of_None c cols : index_of c cols = None <-> c ∉ cols.
Proof.
  induction cols as [|c' cols IH]; simpl.
  { split; [intros _; apply not_elem_of_nil | done]. }
  rewrite not_elem_of_cons, <- IH.
  destruct (String.eqb_spec c c'); destruct (index_of c cols); simpl; naive_solver.
Qed.

(** [df[c]] raises [KeyError c] exactly when [c] is not a label. *)
Lemma get_loc_Err df c e :
  get_loc df c = Err e <-> (c ∉ columns df) /\ e = KeyError c.
Proof.
  unfold get_loc. rewrite <- index_of_None.
  destruct (index_of c (columns df)); split; try discriminate.
  - intros [? _]; discriminate.
  - intros [= <-]; done.
  - intros [_ ->]; done.
Qed.

Lemma get_loc_Ok df c i :
  get_loc df c = Ok i -> columns df !! i = Some c.
Proof.
  unfold get_loc. destruct (index_of c (columns df)) eqn:E; [|discriminate].
  intros [= <-]. by apply index_of_Some in E as [? _].
Qed.

(** A label found in a frame with unique labels is at its one index. *)
Lemma get_loc_unique df c i :
  NoDup (columns df) -> columns df !! i = Some c -> get_loc df c = Ok i.
Proof.
  intros Hnd Hi. unfold get_loc.
  destruct (index_of c (columns df)) as [k|] eqn:E.
  - apply index_of_Some in E as [Hk _]. f_equal.
    eapply NoDup_lookup; eauto.
  - apply index_of_None in E. exfalso. apply E. by eapply list_elem_of_lookup_2.
Qed.

Lemma length_column_at df i : length (column_at df i) = length (rows df).
Proof. apply length_map. Qed.

(** Writing a column back: shape, the column written, the others. *)
Lemma set_column_at_rows_length df i vals :
  length vals = length (rows df) -> length (rows (set_column_at df i vals)) = length (rows df).
Proof. intros H. simpl. rewrite length_zip_with. lia. Qed.

Lemma column_at_set_same df i vals :
  Forall (fun r => (i < length r)%nat) (rows df) -> length vals = length (rows df) ->
  column_at (set_column_at df i vals) i = vals.
Proof.
  destruct df as [cs rs]; unfold column_at, set_column_at; simpl.
  intros Hi; revert vals; induction Hi as [|r rs Hr _ IH]; intros [|v vals] Hl;
    cbn [zip_with map length] in *; try lia; [done|].
  rewrite list_lookup_insert_eq by done. simpl. f_equal. apply IH. lia.
Qed.

Lemma column_at_set_other df i j vals :
  i <> j -> length vals = length (rows df) ->
  column_at (set_column_at df i vals) j = column_at df j.
Proof.
  destruct df as [cs rs]; unfold column_at, set_column_at; simpl.
  intros Hij; revert vals; induction rs as [|r rs IH]; intros [|v vals] Hl;
    cbn [zip_with map length] in *; try lia; [done|].
  rewrite list_lookup_insert_ne by done. f_equal. apply IH. lia.
Qed.

Lemma set_column_at_wf df i vals :
  frame_wf df -> (i < length (columns df))%nat ->
  length vals = length (rows df) -> Forall cell_wf vals ->
  frame_wf (set_column_at df i vals).
Proof.
  destruct df as [cs rs]; unfold frame_wf, set_column_at; simpl.
  intros [Hnd Hrs] Hi Hl Hv; split; [done|]. revert vals Hl Hv.
  induction Hrs as [|r rs [Hr Hwf] _ IH]; intros [|v vals] Hl Hv; simpl in *; try lia;
    [constructor|].
  inversion Hv; subst. constructor; [|apply IH; [lia|done]].
  split; [by rewrite length_insert|]. by apply Forall_insert.
Qed.

(** [df[c] = df[c].astype(t)] raises exactly what the lookup or the
    cast raises, and otherwise writes the cast column at [c]'s index. *)
Lemma astype_column_Ok cast c df df' :
  astype_column cast c df = Ok df' <->
  exists i vals, get_loc df c = Ok i /\ mapR cast (column_at df i) = Ok vals /\
    df' = set_column_at df i vals.
Proof.
  unfold astype_column. split.
  - intros H; inv_ok. eauto.
  - intros (i & vals & Hi & Hv & ->). by rewrite Hi; simpl; rewrite Hv.
Qed.

(** ** [drop_duplicates] *)

Lemma elem_of_dedup_pass seen rs r :
  r ∈ dedup_pass seen rs <-> r ∈ rs /\ r ∉ seen.
Proof.
  revert seen; induction rs as [|x rs IH]; intros seen; simpl.
  { split; [intros ?%elem_of_nil; done | intros [?%elem_of_nil _]; done]. }
  case_decide as Hx.
  - rewrite IH, elem_of_cons. split; [tauto|]. intros [[->|?] ?]; [done|tauto].
  - rewrite elem_of_cons, IH, !elem_of_cons.
    destruct (decide (r = x)); [subst; tauto|]. tauto.
Qed.

Lemma dedup_pass_NoDup seen rs : NoDup (dedup_pass seen rs).
Proof.
  revert seen; induction rs as [|x rs IH]; intros seen; simpl; [constructor|].
  case_decide; [done|]. constructor; [|done].
  rewrite elem_of_dedup_pass, elem_of_cons. tauto.
Qed.

Lemma dedup_pass_sublist seen rs : sublist (dedup_pass seen rs) rs.
Proof.
  revert seen; induction rs as [|x rs IH]; intros seen; simpl; [constructor|].
  case_decide; [by apply sublist_cons | by apply sublist_skip].
Qed.

Lemma dedup_pass_id seen rs :
  NoDup rs -> Forall (fun r => r ∉ seen) rs -> dedup_pass seen rs = rs.
Proof.
  intros Hnd; revert seen; induction Hnd as [|x rs Hx _ IH]; intros seen Hs; simpl; [done|].
  inversion Hs as [|? ? Hxs Hrs]; subst. case_decide; [done|]. f_equal. apply IH.
  rewrite Forall_forall in Hrs |- *. intros r Hr. rewrite not_elem_of_cons.
  split; [intros ->; contradiction | by apply Hrs].
Qed.

(** The pass with a set [seen] of rows already met keeps the rows that
    are neither in [seen] nor before them in the list. *)
Lemma dedup_pass_mask seen rs :
  dedup_pass seen rs =
  mask_out (imap (fun i r => bool_decide (r ∈ seen \/ r ∈ take i rs)) rs) rs.
Proof.
  revert seen; induction rs as [|x rs IH]; intros seen; simpl; [done|].
  rewrite (bool_decide_ext _ (x ∈ seen)) by (rewrite elem_of_nil; tauto).
  case_decide as Hx; rewrite ?bool_decide_true, ?bool_decide_false by done.
  - rewrite IH. f_equal. apply imap_ext. intros i r _. simpl. apply bool_decide_ext.
    rewrite elem_of_cons. split; [tauto|]. intros [?|[->|?]]; auto.
  - rewrite IH. do 2 f_equal. apply imap_ext. intros i r _. simpl. apply bool_decide_ext.
    rewrite !elem_of_cons. tauto.
Qed.
(** Equivalence of pandas' single pass with the documented
    [df[~df.duplicated(keep="first")]]. *)
Lemma dedup_pass_spec rs : dedup_pass [] rs = drop_duplicates_spec rs.
Proof.
  rewrite dedup_pass_mask. unfold drop_duplicates_spec, duplicated. f_equal.
  apply imap_ext. intros i r _. apply bool_decide_ext. rewrite elem_of_nil. tauto.
Qed.

Lemma drop_duplicates_columns df : columns (drop_duplicates df) = columns df.
Proof. done. Qed.

Lemma drop_duplicates_id df : NoDup (rows df) -> drop_duplicates df = df.
Proof.
  intros H. destruct df as [cs rs]; unfold drop_duplicates; simpl in *. f_equal.
  apply dedup_pass_id; [done|]. apply Forall_forall. intros ? _. apply not_elem_of_nil.
Qed.
Lemma has_na_false r : has_na r = false <-> Forall (fun c => is_nan c = false) r.
Proof.
  induction r as [|c r IH]; simpl; [split; auto|].
  rewrite Forall_cons, orb_false_iff, IH. done.
Qed.

(** Writing back a column that was read leaves the frame unchanged. *)
Lemma set_column_at_id df i :
  Forall (fun r => (i < length r)%nat) (rows df) ->
  set_column_at df i (column_at df i) = df.
Proof.
  destruct df as [cs rs]; unfold set_column_at, column_at; simpl. intros H. f_equal.
  induction H as [|r rs Hr _ IH]; cbn [map zip_with]; [done|]. rewrite IH. f_equal.
  destruct (lookup_lt_is_Some_2 r i Hr) as [c Hc]. rewrite Hc. by apply list_insert_id.
Qed.

(** What a successful column cast does to the rows: each row gets the
    cast of its cell at the column's index. *)
Lemma astype_column_rows cast c df df' (P Q : row -> Prop) :
  astype_column cast c df = Ok df' ->
  (forall i r v, get_loc df c = Ok i -> P r ->
     cast (default NaN (r !! i)) = Ok v -> Q (<[i:=v]> r)) ->
  Forall P (rows df) -> columns df' = columns df /\ Forall Q (rows df').
Proof.
  intros (i & vals & Hi & Hv & ->)%astype_column_Ok Himp HP. split; [done|].
  apply mapR_Ok_Forall2 in Hv. unfold column_at in Hv.
  eapply Forall_zip_with_Forall2; [|intros r v Hrv Hr; exact (Himp i r v Hi Hr Hrv)|done].
  clear -Hv. revert vals Hv. induction (rows df) as [|r rs IH]; intros vals Hv;
    inversion Hv; subst; constructor; auto.
Qed.
(** ** Theorems *)

(** C: after [drop_duplicates] no row occurs twice, and the rows that
    remain are exactly the distinct rows of the table. *)
Theorem drop_duplicates_distinct df :
  NoDup (rows (drop_duplicates df)) /\
  forall r, r ∈ rows (drop_duplicates df) <-> r ∈ rows df.
Proof.
  split; [apply dedup_pass_NoDup|]. intros r. simpl. rewrite elem_of_dedup_pass.
  split; [tauto|]. intros Hr. split; [exact Hr | apply not_elem_of_nil].
Qed.

(** C: [df[c] = df[c].astype(t)] on a rectangular table: [c] is
    looked up, the column at its index becomes the cast column, every
    other column and the labels stay as they were. *)
Theorem astype_column_effect cast c df df' :
  frame_wf df -> astype_column cast c df = Ok df' ->
  exists i, get_loc df c = Ok i /\ columns df' = columns df /\
    mapR cast (column_at df i) = Ok (column_at df' i) /\
    forall j, j <> i -> column_at df' j = column_at df j.
Proof.
  intros [_ Hwf] (i & vals & Hi & Hv & ->)%astype_column_Ok.
  pose proof (mapR_Ok_length _ _ _ Hv) as Hl. rewrite length_column_at in Hl.
  exists i. split_and!; [done|done| |].
  - rewrite column_at_set_same; [done| |done].
    eapply Forall_impl; [exact Hwf|]. intros r [Hr _]. rewrite Hr.
    by eapply lookup_lt_Some, get_loc_Ok.
  - intros j Hj. by apply column_at_set_other.
Qed.

(** The year column of a two-row table, cast to int. *)
Definition astype_example : frame :=
  mkFrame ["Year"; "Rate"] [[Str "2019"; Float 30]; [Float (4041 # 2); Float 31]].

Lemma astype_column_effect_witness :
  exists df', astype_column astype_int "Year" astype_example = Ok df' /\
  exists i, get_loc astype_example "Year" = Ok i /\ columns df' = columns astype_example /\
    mapR astype_int (column_at astype_example i) = Ok (column_at df' i) /\
    forall j, j <> i -> column_at df' j = column_at astype_example j.
Proof.
  eexists. split; [vm_compute; reflexivity|].
  apply astype_column_effect.
  - decide_by_compute (frame_wf astype_example).
  - vm_compute. reflexivity.
Defined.
End Table.
