(* ===== verification/Clean.v ===== *)
(** * The cleaning stage of src/main.py (l. 21-34)

    [Module Cleaner]: [clean] composes, in the order of the script,
    [dropna], [rename] with the script's dict, the two column casts
    and [drop_duplicates].  [cleaned] is the invariant of its output;
    the theorems show that every successful run establishes it, that
    cleaning is idempotent and only removes rows, when it raises, and
    run it on the scenario of the specification. *)

From Stdlib Require Import String ZArith QArith.
From stdpp Require Import base list decidable strings.
From S2P Require Import Prelude Frame.

Module Cleaner.
Import Cell Table.
Local Open Scope string_scope.
Local Open Scope pipeline_scope.

(** l. 21-34, in order. *)
Definition clean (df : frame) : result frame :=
  let df := dropna df in
  let df := rename main_mapping df in
  df <- astype_column astype_int "Year" df ;;
  df <- astype_column astype_float "ObesityRate" df ;;
  ret (drop_duplicates df).

(** A row of a cleaned table with [n] columns, [Year] at [iy] and
    [ObesityRate] at [ir]. *)
Definition clean_row (n iy ir : nat) (r : row) : Prop :=
  length r = n /\ Forall cell_wf r /\ has_na r = false /\
  is_int (default NaN (r !! iy)) = true /\ is_float (default NaN (r !! ir)) = true.

(** The invariant of section 3 of the specification: unique labels
    with [Year] and [ObesityRate] among them, rectangular, no missing
    value, [Year] int, [ObesityRate] float, no duplicate row. *)
Definition cleaned (df : frame) : Prop :=
  NoDup (columns df) /\ NoDup (rows df) /\
  exists iy ir, columns df !! iy = Some "Year" /\ columns df !! ir = Some "ObesityRate" /\
    Forall (clean_row (length (columns df)) iy ir) (rows df).

#[export] Instance clean_row_dec n iy ir r : Decision (clean_row n iy ir r).
Proof. unfold clean_row. apply _. Defined.

(** The rows after [dropna]: rectangular, well-formed, complete. *)
Definition complete_row (n : nat) (r : row) : Prop :=
  length r = n /\ Forall cell_wf r /\ has_na r = false.

(** l. 30-31 on one row of the relabelled table: the [Year] cell at
    [iy] cast to int, then the [ObesityRate] cell at [ir] of the row so
    updated cast to float.  The script casts column by column; on a
    successful run the two orders give the same rows. *)
Definition cast_row (iy ir : nat) (r : row) : result row :=
  y <- astype_int (default NaN (r !! iy)) ;;
  let r := <[iy:=y]> r in
  x <- astype_float (default NaN (r !! ir)) ;;
  ret (<[ir:=x]> r).

(** *** Each step *)

Lemma dropna_complete df :
  frame_wf df -> Forall (complete_row (length (columns df))) (rows (dropna df)).
Proof.
  intros [_ Hrs]. apply Forall_forall. intros r (Hr & Hna)%elem_of_dropna.
  rewrite Forall_forall in Hrs. destruct (Hrs r Hr) as [? ?]. done.
Qed.

(** Writing a present, well-formed cell into a complete row keeps it
    complete. *)
Lemma complete_row_insert n i r v :
  complete_row n r -> cell_wf v -> is_nan v = false -> complete_row n (<[i:=v]> r).
Proof.
  intros (Hl & Hwf & Hna) Hv Hvn. split_and!.
  - by rewrite length_insert.
  - by apply Forall_insert.
  - apply has_na_false. apply has_na_false in Hna. by apply Forall_insert.
Qed.

Lemma complete_row_cell n i r :
  complete_row n r -> (i < n)%nat ->
  exists c, r !! i = Some c /\ cell_wf c /\ is_nan c = false.
Proof.
  intros (Hl & Hwf & Hna%has_na_false) Hi.
  destruct (lookup_lt_is_Some_2 r i) as [c Hc]; [lia|].
  exists c. split; [done|]. rewrite Forall_lookup in Hwf, Hna. eauto.
Qed.

Lemma astype_int_present c v :
  astype_int c = Ok v -> cell_wf v /\ is_nan v = false /\ is_int v = true.
Proof. intros H. pose proof (astype_int_is_int c v H). by destruct v. Qed.

Lemma astype_float_present c v :
  cell_wf c -> is_nan c = false -> astype_float c = Ok v ->
  cell_wf v /\ is_nan v = false /\ is_float v = true.
Proof.
  intros Hwf Hn H. destruct (astype_float_is_float c v Hwf Hn H). by destruct v.
Qed.

(** The [Year] cast: rows stay complete and get an int at [iy]. *)
Lemma clean_year_step df df' :
  astype_column astype_int "Year" df = Ok df' ->
  Forall (complete_row (length (columns df))) (rows df) ->
  columns df' = columns df /\ exists iy, columns df !! iy = Some "Year" /\
  Forall (fun r => complete_row (length (columns df)) r /\
                   is_int (default NaN (r !! iy)) = true) (rows df').
Proof.
  intros Hc HP. pose proof Hc as Hc'.
  apply astype_column_Ok in Hc' as (iy & _ & Hiy & _ & _).
  eapply (astype_column_rows _ _ _ _ _
    (fun r => complete_row _ r /\ is_int (default NaN (r !! iy)) = true)) in Hc
    as [Hcols HQ]; [split; [done|]; exists iy; split; [by apply get_loc_Ok|done] | |done].
  intros i r v Hi Hr Hv. rewrite Hiy in Hi; injection Hi as <-.
  destruct (astype_int_present _ _ Hv) as (? & ? & ?).
  split; [by apply complete_row_insert|].
  apply get_loc_Ok in Hiy.
  destruct (complete_row_cell _ iy r Hr) as (c & Hcell & _); [by eapply lookup_lt_Some|].
  rewrite list_lookup_insert_eq; [done|]. by eapply lookup_lt_Some.
Qed.
(** The [ObesityRate] cast: the [Year] column, at another index, is
    untouched, and every row becomes a clean row. *)
Lemma clean_rate_step df df' iy :
  astype_column astype_float "ObesityRate" df = Ok df' ->
  columns df !! iy = Some "Year" ->
  Forall (fun r => complete_row (length (columns df)) r /\
                   is_int (default NaN (r !! iy)) = true) (rows df) ->
  columns df' = columns df /\ exists ir, columns df !! ir = Some "ObesityRate" /\
  Forall (clean_row (length (columns df)) iy ir) (rows df').
Proof.
  intros Hc Hiy HP. pose proof Hc as Hc'.
  apply astype_column_Ok in Hc' as (ir & _ & Hir & _ & _).
  eapply (astype_column_rows _ _ _ _ _ (clean_row (length (columns df)) iy ir)) in Hc
    as [Hcols HQ]; [split; [done|]; exists ir; split; [by apply get_loc_Ok|done] | |done].
  intros i r v Hi [Hr Hint] Hv. rewrite Hir in Hi; injection Hi as <-.
  apply get_loc_Ok in Hir.
  assert (iy <> ir) as Hne by (intros ->; congruence).
  destruct (complete_row_cell _ ir r Hr) as (c & Hcell & Hwf & Hn);
    [by eapply lookup_lt_Some|].
  rewrite Hcell in Hv. destruct (astype_float_present _ _ Hwf Hn Hv) as (? & ? & ?).
  destruct (complete_row_insert _ ir r v Hr) as (? & ? & ?); [done|done|].
  split_and!; try done.
  - by rewrite list_lookup_insert_ne.
  - rewrite list_lookup_insert_eq; [done|]. by eapply lookup_lt_Some.
Qed.

Lemma rename_dropna_columns df :
  columns (rename main_mapping (dropna df)) = map (rename_label main_mapping) (columns df).
Proof. done. Qed.

(** The relabelling of the script is idempotent: its new names are
    not among its old ones. *)
Lemma rename_label_main_idem c :
  rename_label main_mapping (rename_label main_mapping c) = rename_label main_mapping c.
Proof.
  simpl. destruct (String.eqb_spec c "DIM_TIME"); [done|].
  destruct (String.eqb_spec c "RATE_PER_100_N"); [done|].
  destruct (String.eqb_spec c "DIM_TIME"); [done|].
  by destruct (String.eqb_spec c "RATE_PER_100_N").
Qed.

(** The only labels that become [Year]. *)
Lemma rename_label_main_Year c :
  rename_label main_mapping c = "Year" <-> c = "DIM_TIME" \/ c = "Year".
Proof.
  simpl. destruct (String.eqb_spec c "DIM_TIME"); [naive_solver|].
  destruct (String.eqb_spec c "RATE_PER_100_N") as [->|]; naive_solver.
Qed.

(** A cleaned table is a fixed point of every step of the cleaning. *)
Lemma clean_fixpoint df :
  cleaned df -> rename main_mapping df = df -> clean df = Ok df.
Proof.
  intros (Hnd & Hrows & iy & ir & Hiy & Hir & HP) Hren. unfold clean.
  assert (Forall (fun r => has_na r = false) (rows df)) as Hna
    by (eapply Forall_impl; [exact HP|]; intros r (? & ? & ? & ? & ?); done).
  rewrite (dropna_noop df Hna), Hren.
  assert (Forall (fun r => (iy < length r)%nat /\ (ir < length r)%nat) (rows df)) as Hlt.
  { eapply Forall_impl; [exact HP|]. intros r (Hl & _). rewrite Hl.
    split; by eapply lookup_lt_Some. }
  unfold astype_column. rewrite (get_loc_unique _ _ _ Hnd Hiy); simpl.
  rewrite mapR_id; simpl.
  2:{ apply Forall_map. eapply Forall_impl; [exact HP|].
      intros r (_ & _ & _ & Hi & _). by apply astype_int_id. }
  rewrite set_column_at_id by (eapply Forall_impl; [exact Hlt|]; naive_solver).
  rewrite (get_loc_unique _ _ _ Hnd Hir); simpl.
  rewrite mapR_id; simpl.
  2:{ apply Forall_map. eapply Forall_impl; [exact HP|].
      intros r (_ & _ & _ & _ & Hf). by apply astype_float_id. }
  rewrite set_column_at_id by (eapply Forall_impl; [exact Hlt|]; naive_solver).
  by rewrite drop_duplicates_id.
Qed.
Lemma astype_column_columns cast c df df' :
  astype_column cast c df = Ok df' -> columns df' = columns df.
Proof. by intros (? & ? & _ & _ & ->)%astype_column_Ok. Qed.

Lemma astype_column_length cast c df df' :
  astype_column cast c df = Ok df' -> (length (rows df') <= length (rows df))%nat.
Proof.
  intros (? & ? & _ & _ & ->)%astype_column_Ok. simpl. rewrite length_zip_with. lia.
Qed.

(** The steps of a successful run. *)
Lemma clean_Ok df df' :
  clean df = Ok df' <->
  exists d3 d4,
    astype_column astype_int "Year" (rename main_mapping (dropna df)) = Ok d3 /\
    astype_column astype_float "ObesityRate" d3 = Ok d4 /\ df' = drop_duplicates d4.
Proof.
  unfold clean. split.
  - intros H; inv_ok. eauto.
  - intros (d3 & d4 & H3 & H4 & ->). by rewrite H3; simpl; rewrite H4.
Qed.

Lemma clean_columns df df' :
  clean df = Ok df' -> columns df' = map (rename_label main_mapping) (columns df).
Proof.
  intros (d3 & d4 & H3 & H4 & ->)%clean_Ok. simpl.
  rewrite (astype_column_columns _ _ _ _ H4). by rewrite (astype_column_columns _ _ _ _ H3).
Qed.

Lemma get_loc_columns df1 df2 c :
  columns df1 = columns df2 -> get_loc df1 c = get_loc df2 c.
Proof. unfold get_loc. by intros ->. Qed.

(** A successful cleaning leaves both labels the forecast reads. *)
Lemma clean_get_loc df df' :
  clean df = Ok df' ->
  exists iy ir, get_loc df' "Year" = Ok iy /\ get_loc df' "ObesityRate" = Ok ir.
Proof.
  intros (d3 & d4 & H3 & H4 & ->)%clean_Ok.
  pose proof (astype_column_columns _ _ _ _ H3) as C3.
  pose proof (astype_column_columns _ _ _ _ H4) as C4.
  apply astype_column_Ok in H3 as (iy & _ & Hiy & _ & _).
  apply astype_column_Ok in H4 as (ir & _ & Hir & _ & _).
  exists iy, ir. rewrite !(get_loc_columns (drop_duplicates d4) d3) by (simpl; congruence).
  split; [|done]. rewrite <- Hiy. by apply get_loc_columns.
Qed.

(** A successful column cast, row by row. *)
Lemma astype_column_Forall2 cast c df df' :
  astype_column cast c df = Ok df' ->
  exists i vals, get_loc df c = Ok i /\
    Forall2 (fun r v => cast (default NaN (r !! i)) = Ok v) (rows df) vals /\
    rows df' = zip_with (fun r v => <[i:=v]> r) (rows df) vals.
Proof.
  intros (i & vals & Hi & Hv & ->)%astype_column_Ok. exists i, vals.
  split_and!; [done| |done]. apply mapR_Ok_Forall2 in Hv.
  unfold column_at in Hv. by apply Forall2_fmap_l in Hv.
Qed.

(** Two column casts in a row are the row-wise [cast_row]. *)
Lemma cast_row_columns iy ir rs vs ws :
  Forall2 (fun r v => astype_int (default NaN (r !! iy)) = Ok v) rs vs ->
  Forall2 (fun r w => astype_float (default NaN (r !! ir)) = Ok w)
    (zip_with (fun r v => <[iy:=v]> r) rs vs) ws ->
  mapR (cast_row iy ir) rs =
  Ok (zip_with (fun r w => <[ir:=w]> r) (zip_with (fun r v => <[iy:=v]> r) rs vs) ws).
Proof.
  intros Hv. revert ws. induction Hv as [|r v rs vs Hrv _ IH]; intros ws Hw;
    inversion Hw as [|? w ? ws' Hw1 Hws]; subst; [done|].
  cbn [mapR zip_with]. rewrite (IH ws' Hws). unfold cast_row.
  rewrite Hrv; simpl. by rewrite Hw1.
Qed.

(** *** The theorems of the cleaning stage *)

Lemma clean_cleaned df df' :
  frame_wf df -> NoDup (map (rename_label main_mapping) (columns df)) ->
  clean df = Ok df' -> cleaned df'.
Proof.
  intros Hwf Hnd H. pose proof (clean_columns _ _ H) as Hcols.
  apply clean_Ok in H as (d3 & d4 & H & H0 & ->).
  pose proof (dropna_complete df Hwf) as Hc.
  destruct (clean_year_step _ _ H) as [Hc1 (iy & Hiy & H1)];
    [simpl; by rewrite length_map|].
  destruct (clean_rate_step _ _ iy H0) as [Hc2 (ir & Hir & H2)];
    [by rewrite Hc1 | by rewrite Hc1|].
  rewrite Hc1 in Hir, H2. simpl in Hiy, Hir, H2. unfold cleaned; simpl.
  rewrite Hc2, Hc1. simpl. split_and!; [done | apply dedup_pass_NoDup |].
  exists iy, ir. split_and!; [done|done|].
  eapply Forall_of_sublist; [apply dedup_pass_sublist|]. done.
Qed.

(** C: every successful cleaning of a table read by [read_csv] whose
    relabelled header stays unique yields a table with the invariant
    [cleaned]. *)
Theorem clean_establishes_cleaned df df' :
  frame_wf df -> NoDup (map (rename_label main_mapping) (columns df)) ->
  clean df = Ok df' -> cleaned df'.
Proof. intros Hwf Hnd H. exact (clean_cleaned df df' Hwf Hnd H). Qed.

(** C: cleaning its own output changes nothing. *)
Theorem clean_idempotent df df' :
  frame_wf df -> NoDup (map (rename_label main_mapping) (columns df)) ->
  clean df = Ok df' -> clean df' = Ok df'.
Proof.
  intros Hwf Hnd H. apply clean_fixpoint; [by eapply clean_cleaned|].
  apply clean_columns in H. destruct df' as [cs rs]; unfold rename; simpl in *. subst.
  f_equal. rewrite map_map. apply map_ext. apply rename_label_main_idem.
Qed.

(** C: the rows of the cleaned table are exactly the complete rows of
    the input, each with its [Year] cast to int and its [ObesityRate]
    cast to float, in file order, with every repetition of an earlier
    row dropped ([df[~df.duplicated()]]); nothing else is removed,
    whatever the values (a negative rate included). *)
Theorem clean_rows df df' :
  clean df = Ok df' ->
  exists iy ir rs,
    get_loc (rename main_mapping df) "Year" = Ok iy /\
    get_loc (rename main_mapping df) "ObesityRate" = Ok ir /\
    mapR (cast_row iy ir) (rows (dropna df)) = Ok rs /\
    rows df' = drop_duplicates_spec rs.
Proof.
  intros (d3 & d4 & H3 & H4 & ->)%clean_Ok.
  pose proof (astype_column_columns _ _ _ _ H3) as C3.
  apply astype_column_Forall2 in H3 as (iy & vs & Hiy & Hvs & R3).
  apply astype_column_Forall2 in H4 as (ir & ws & Hir & Hws & R4).
  rewrite R3 in Hws, R4. exists iy, ir.
  eexists. split_and!; [exact Hiy | | apply (cast_row_columns _ _ _ _ _ Hvs Hws) |].
  - rewrite <- Hir. apply get_loc_columns. by rewrite C3.
  - simpl. rewrite R4, dedup_pass_mask. unfold drop_duplicates_spec, duplicated.
    f_equal. apply imap_ext. intros k r _. apply bool_decide_ext.
    rewrite elem_of_nil. tauto.
Qed.

(** C: the rename is silent when the time column is missing, and the
    cast that follows raises [KeyError "Year"]. *)
Theorem clean_KeyError_Year df :
  "DIM_TIME" ∉ columns df -> "Year" ∉ columns df ->
  clean df = Err (KeyError "Year").
Proof.
  intros Hd Hy. unfold clean, astype_column.
  rewrite (proj2 (get_loc_Err _ _ (KeyError "Year"))); [done|]. split; [|done].
  rewrite rename_dropna_columns, list_elem_of_In, in_map_iff.
  intros (c & Hc%rename_label_main_Year & Hin%list_elem_of_In).
  destruct Hc as [->| ->]; contradiction.
Qed.

(** C: a complete row whose [Year] is text that [int] rejects makes the
    cleaning raise. *)
Theorem clean_rejects_bad_year df iy r s :
  get_loc (rename main_mapping (dropna df)) "Year" = Ok iy ->
  r ∈ rows (dropna df) -> r !! iy = Some (Str s) -> parse_int s = None ->
  is_ok (clean df) = false.
Proof.
  intros Hiy Hr Hs Hp. unfold clean, astype_column. rewrite Hiy; simpl.
  destruct (mapR astype_int _) eqn:E; [|done]. exfalso.
  assert (is_ok (mapR astype_int (column_at (rename main_mapping (dropna df)) iy)) = true)
    as Hok%mapR_is_ok by (by rewrite E).
  rewrite Forall_forall in Hok.
  specialize (Hok (Str s)). simpl in Hok. rewrite Hp in Hok.
  assert (false = true) as ?; [|discriminate]. apply Hok.
  apply list_elem_of_In, in_map_iff. exists r. rewrite Hs. split; [done|].
  by apply list_elem_of_In.
Qed.

(** *** Concrete runs *)

(** The scenario of section 8 of the specification: five rows, one with
    a missing rate and one exact duplicate. *)
Definition spec_scenario : frame :=
  mkFrame ["DIM_TIME"; "RATE_PER_100_N"; "SEX"]
    [[Int 2018; Float 30; Str "BTSX"];
     [Int 2019; Float 31; Str "BTSX"];
     [Int 2019; Float 31; Str "BTSX"];
     [Int 2020; NaN; Str "BTSX"];
     [Int 2021; Float 33; Str "BTSX"]].

(** *** Witnesses *)

Lemma clean_establishes_cleaned_witness :
  exists df', clean spec_scenario = Ok df' /\ cleaned df'.
Proof.
  eexists. split; [vm_compute; reflexivity|].
  apply (clean_establishes_cleaned spec_scenario).
  - decide_by_compute (frame_wf spec_scenario).
  - decide_by_compute (NoDup (map (rename_label main_mapping) (columns spec_scenario))).
  - vm_compute. reflexivity.
Defined.

Lemma clean_idempotent_witness :
  exists df', clean spec_scenario = Ok df' /\ clean df' = Ok df'.
Proof.
  eexists. split; [vm_compute; reflexivity|].
  apply (clean_idempotent spec_scenario).
  - decide_by_compute (frame_wf spec_scenario).
  - decide_by_compute (NoDup (map (rename_label main_mapping) (columns spec_scenario))).
  - vm_compute. reflexivity.
Defined.

Lemma clean_rows_witness :
  exists df', clean spec_scenario = Ok df' /\
  exists iy ir rs,
    get_loc (rename main_mapping spec_scenario) "Year" = Ok iy /\
    get_loc (rename main_mapping spec_scenario) "ObesityRate" = Ok ir /\
    mapR (cast_row iy ir) (rows (dropna spec_scenario)) = Ok rs /\
    rows df' = drop_duplicates_spec rs.
Proof.
  eexists. split; [vm_compute; reflexivity|].
  apply (clean_rows spec_scenario). vm_compute. reflexivity.
Defined.

(** A table whose time column has another name. *)
Definition no_year_frame : frame :=
  mkFrame ["TIME_PERIOD"; "RATE_PER_100_N"] [[Int 2019; Float 30]].

Lemma clean_KeyError_Year_witness :
  ("DIM_TIME" ∉ columns no_year_frame) /\ ("Year" ∉ columns no_year_frame) /\
  clean no_year_frame = Err (KeyError "Year").
Proof.
  split; [decide_by_compute ("DIM_TIME" ∉ columns no_year_frame)|].
  split; [decide_by_compute ("Year" ∉ columns no_year_frame)|].
  apply clean_KeyError_Year.
  - decide_by_compute ("DIM_TIME" ∉ columns no_year_frame).
  - decide_by_compute ("Year" ∉ columns no_year_frame).
Defined.

(** A table whose year is not a numeral. *)
Definition bad_year_frame : frame :=
  mkFrame ["DIM_TIME"; "RATE_PER_100_N"] [[Str "2019-2020"; Float 30]].

Lemma clean_rejects_bad_year_witness : is_ok (clean bad_year_frame) = false.
Proof.
  apply (clean_rejects_bad_year bad_year_frame 0 [Str "2019-2020"; Float 30] "2019-2020").
  - vm_compute. reflexivity.
  - decide_by_compute ([Str "2019-2020"; Float 30] ∈ rows (dropna bad_year_frame)).
  - reflexivity.
  - vm_compute. reflexivity.
Defined.
End Cleaner.
