(* ===== verification/Text.v ===== *)
(** * Text forms of cells and rows: Python's number printing, the
    [csv] module's writer and pandas' tokenizer

    [df.to_csv] (src/main.py l. 37) prints every cell ([str] of an int,
    the shortest [repr] of a float, a string as it is) and writes the
    rows with Python's [csv.writer] (quoting [QUOTE_MINIMAL], line
    terminator ["\n"]); [pd.read_csv] (l. 13) splits the text back into
    records with pandas' tokenizer.  [Module Text] holds these three
    layers and their round trips; [Csv] builds the reader and writer of
    frames on them. *)

From Stdlib Require Import String Ascii ZArith QArith Lia.
From stdpp Require Import base list decidable strings.
From S2P Require Import Prelude Frame.

Local Open Scope Z_scope.

Module Text.
Import Cell.

(** ** Printing numbers *)

Definition digit_char (d : Z) : ascii := ascii_of_nat (48 + Z.to_nat d).

(** The last [k] decimal digits of [v], most significant first, with
    leading zeros. *)
Fixpoint dlist (k : nat) (v : Z) : list Z :=
  match k with
  | O => []
  | S k' => dlist k' (v / 10) ++ [v mod 10]
  end.

Definition digits_fixed (k : nat) (v : Z) : list ascii := map digit_char (dlist k v).

(** The number of decimal digits of [v >= 0], by division by ten;
    [fuel] bounds the count. *)
Fixpoint ndigits_fuel (fuel : nat) (v : Z) : nat :=
  match fuel with
  | O => O
  | S f => if v =? 0 then O else S (ndigits_fuel f (v / 10))
  end.

(** [v < 2 ^ (log2 v + 1) <= 10 ^ (log2 v + 1)], so [log2 v + 1] rounds
    are enough ([ndigits_bound]); zero has one digit. *)
Definition ndigits (v : Z) : nat :=
  Nat.max 1 (ndigits_fuel (S (Z.to_nat (Z.log2 v))) v).

(** [str(v)] for [v >= 0]. *)
Definition show_nat (v : Z) : list ascii := digits_fixed (ndigits v) v.

(** [str(z)] of an int64. *)
Definition show_int (z : Z) : list ascii :=
  if z <? 0 then "-"%char :: show_nat (- z) else show_nat z.

(** The least [k], from [k0] on and among [fuel] candidates, with
    [d | 10 ^ k]. *)
Fixpoint dec_exp_fuel (fuel k : nat) (d : Z) : option nat :=
  match fuel with
  | O => None
  | S f => if (10 ^ Z.of_nat k) mod d =? 0 then Some k else dec_exp_fuel f (S k) d
  end.

(** The number of fractional digits of a reduced [n / d]: when
    [d = 2^a 5^b] it is [max a b], below the bit length of [d]. *)
Definition dec_exp (d : positive) : option nat :=
  dec_exp_fuel (S (Pos.size_nat d)) 0 (Zpos d).

(** The value has a finite decimal expansion, as every number read
    from decimal text has. *)
Definition finite_decimal (q : Q) : bool := bool_decide (is_Some (dec_exp (Qden q))).

(** [repr(x)] of a float: the exact digits, with the fewest fractional
    digits that hold them and at least one (["30.0"]).  CPython prints
    the shortest decimal that reads back as the same double, which for
    a number read from decimal text is that number; it switches to
    exponent notation below [1e-4] and from [1e16] on, which rates and
    years never reach.  A value without finite expansion is cut after
    17 fractional digits. *)
Definition show_float (q : Q) : list ascii :=
  let k := Nat.max 1 (default 17%nat (dec_exp (Qden q))) in
  let m := Z.abs (Qnum q) * 10 ^ Z.of_nat k / Zpos (Qden q) in
  (if Qnum q <? 0 then ["-"%char] else [])
    ++ show_nat (m / 10 ^ Z.of_nat k) ++ "."%char :: digits_fixed k (m mod 10 ^ Z.of_nat k).

(** [isspace_ascii] of pandas' C parser: tab to carriage return and
    the space. *)
Definition c_space (c : ascii) : bool :=
  match nat_of_ascii c with 9 | 10 | 11 | 12 | 13 | 32 => true | _ => false end%nat.

(** The numerals of [read_csv]'s type inference ([str_to_int64],
    [xstrtod]): no underscores, ASCII spaces. *)
Definition pandas_syntax : syntax := mkSyntax c_space false.

(** ** [csv.writer] *)

Definition dquote : ascii := ascii_of_nat 34.
Definition nl : ascii := ascii_of_nat 10.
Definition cr : ascii := ascii_of_nat 13.
Definition comma : ascii := ","%char.

(** [QUOTE_MINIMAL]: a field is quoted when it holds the delimiter,
    the quote character or a line break. *)
Definition special (c : ascii) : bool :=
  (c =? comma)%char || (c =? dquote)%char || (c =? nl)%char || (c =? cr)%char.

Definition needs_quote (f : list ascii) : bool := existsb special f.

(** [doublequote=True]: a quote inside a quoted field is doubled. *)
Fixpoint double_quotes (f : list ascii) : list ascii :=
  match f with
  | [] => []
  | c :: r => if (c =? dquote)%char then dquote :: dquote :: double_quotes r
              else c :: double_quotes r
  end.

Definition write_field (f : list ascii) : list ascii :=
  if needs_quote f then dquote :: double_quotes f ++ [dquote] else f.

Fixpoint join_fields (fs : list (list ascii)) : list ascii :=
  match fs with
  | [] => []
  | [f] => write_field f
  | f :: fs' => write_field f ++ comma :: join_fields fs'
  end.

(** [writer.writerow(fields)] with [lineterminator="\n"]; a record of
    a single empty field is written as a quoted empty string
    ([csv_writerow] in CPython's [_csv.c]), so that it is not read back
    as a blank line. *)
Definition write_row (fs : list (list ascii)) : list ascii :=
  match fs with
  | [[]] => [dquote; dquote]
  | _ => join_fields fs
  end ++ [nl].

Definition write_rows (rs : list (list (list ascii))) : list ascii := concat (map write_row rs).

(** ** pandas' tokenizer ([tokenize_bytes] in [tokenizer.c]) *)

(** The states of the C tokenizer that the default options reach
    (comma delimiter, double quote, no escape or comment character,
    [skip_blank_lines=True]). *)
Inductive tstate : Type :=
| StartRecord | StartField | InField | InQuoted | QuoteInQuoted | WhitespaceLine | EatCRNL.

#[export] Instance tstate_eq_dec : EqDecision tstate.
Proof. solve_decision. Defined.

(** The tokenizer's state: the current field and record, reversed, and
    the records ended so far, reversed. *)
Record tok : Type := mkTok {
  t_state : tstate;
  t_field : list ascii;
  t_record : list (list ascii);
  t_out : list (list (list ascii))
}.

Definition tok_init : tok := mkTok StartRecord [] [] [].

Definition is_blank (c : ascii) : bool := (c =? " ")%char || (c =? ascii_of_nat 9)%char.

Definition push (st : tstate) (c : ascii) (t : tok) : tok :=
  mkTok st (c :: t_field t) (t_record t) (t_out t).

(** [END_FIELD]. *)
Definition end_field (st : tstate) (t : tok) : tok :=
  mkTok st [] (rev (t_field t) :: t_record t) (t_out t).

(** [END_FIELD] then [END_LINE]. *)
Definition end_line (st : tstate) (t : tok) : tok :=
  mkTok st [] [] (rev (rev (t_field t) :: t_record t) :: t_out t).

Definition goto (st : tstate) (t : tok) : tok := mkTok st (t_field t) (t_record t) (t_out t).

(** [IN_FIELD]: a quote is data there. *)
Definition in_field (c : ascii) (t : tok) : tok :=
  if (c =? nl)%char then end_line StartRecord t
  else if (c =? cr)%char then end_line EatCRNL t
  else if (c =? comma)%char then end_field StartField t
  else push InField c t.

(** [START_FIELD]. *)
Definition start_field (c : ascii) (t : tok) : tok :=
  if (c =? dquote)%char then goto InQuoted t else in_field c t.

(** [START_RECORD]: a line break there is a blank line, skipped; a
    leading blank may begin a whitespace-only line, also skipped. *)
Definition start_record (c : ascii) (t : tok) : tok :=
  if (c =? nl)%char then t
  else if (c =? cr)%char then goto EatCRNL t
  else if is_blank c then push WhitespaceLine c t
  else start_field c t.

Definition step (t : tok) (c : ascii) : tok :=
  match t_state t with
  | StartRecord => start_record c t
  | StartField => start_field c t
  | InField => in_field c t
  | InQuoted => if (c =? dquote)%char then goto QuoteInQuoted t else push InQuoted c t
  | QuoteInQuoted =>
      if (c =? dquote)%char then push InQuoted c t
      else in_field c t
  | WhitespaceLine =>
      if (c =? nl)%char then mkTok StartRecord [] [] (t_out t)
      else if (c =? cr)%char then mkTok EatCRNL [] [] (t_out t)
      else if is_blank c then push WhitespaceLine c t
      (* not blank: the line is read again from its start as a field *)
      else in_field c (goto InField t)
  | EatCRNL => if (c =? nl)%char then goto StartRecord t else start_record c (goto StartRecord t)
  end.

(** [parser_handle_eof]. *)
Definition finish (t : tok) : result (list (list (list ascii))) :=
  match t_state t with
  | StartRecord | WhitespaceLine | EatCRNL => Ok (rev (t_out t))
  | InQuoted => Err (ParserError "Error tokenizing data. C error: EOF inside string")
  | StartField | InField | QuoteInQuoted => Ok (rev (t_out (end_line StartRecord t)))
  end.

(** The records of a text. *)
Definition tokenize (l : list ascii) : result (list (list (list ascii))) :=
  finish (fold_left step l tok_init).

(** A record the writer and the tokenizer agree on: at least one field,
    and not a single non-empty field of blanks, which [read_csv] would
    skip as a whitespace-only line. *)
Definition writable_row (fs : list (list ascii)) : bool :=
  match fs with
  | [] => false
  | [f] => negb (bool_decide (f <> []) && forallb is_blank f)
  | _ => true
  end.

(** ** Digits *)

Definition digits_value (ds : list Z) (acc : Z) : Z := fold_left (fun a d => 10 * a + d) ds acc.

Definition is_digit (d : Z) : Prop := 0 <= d <= 9.

Lemma digit_cases d : is_digit d ->
  d = 0 \/ d = 1 \/ d = 2 \/ d = 3 \/ d = 4 \/ d = 5 \/ d = 6 \/ d = 7 \/ d = 8 \/ d = 9.
Proof. unfold is_digit. lia. Qed.

(** Checks on the ten digit characters. *)
Ltac by_digit_cases d :=
  let Hc := fresh in
  intros Hc%digit_cases; repeat destruct Hc as [->|Hc]; [..|subst]; repeat split.

Lemma digit_val_char d : is_digit d -> digit_val (digit_char d) = Some d.
Proof. by_digit_cases d. Qed.

Lemma digit_char_not_space d : is_digit d -> is_space (digit_char d) = false /\ c_space (digit_char d) = false.
Proof. by_digit_cases d. Qed.

Lemma scan_sign_digit d r : is_digit d -> scan_sign (digit_char d :: r) = (1, digit_char d :: r).
Proof. by_digit_cases d. Qed.

Lemma digit_char_not_underscore d : is_digit d -> (digit_char d =? "_")%char = false.
Proof. by_digit_cases d. Qed.

Lemma pow10_succ k : 10 ^ Z.of_nat (S k) = 10 * 10 ^ Z.of_nat k.
Proof. rewrite Nat2Z.inj_succ, Z.pow_succ_r; lia. Qed.

Lemma pow10_pos k : 0 < 10 ^ Z.of_nat k.
Proof. apply Z.pow_pos_nonneg; lia. Qed.

Lemma dlist_length k v : length (dlist k v) = k.
Proof. revert v; induction k; intros v; cbn [dlist]; [done|]. rewrite length_app, IHk; simpl; lia. Qed.

Lemma dlist_range k v : Forall is_digit (dlist k v).
Proof.
  revert v; induction k; intros v; cbn [dlist]; [constructor|].
  apply Forall_app; split; [apply IHk|]. constructor; [|constructor].
  pose proof (Z.mod_pos_bound v 10); unfold is_digit; lia.
Qed.

Lemma dlist_value k v acc :
  digits_value (dlist k v) acc = acc * 10 ^ Z.of_nat k + v mod 10 ^ Z.of_nat k.
Proof.
  revert v acc; induction k; intros v acc; unfold digits_value in *; cbn [dlist].
  - cbn. rewrite Z.mod_1_r; lia.
  - rewrite fold_left_app, IHk; cbn [fold_left]. rewrite pow10_succ.
    rewrite (Z.rem_mul_r v 10 (10 ^ Z.of_nat k)) by (pose proof (pow10_pos k); lia). lia.
Qed.

(** What may follow a run of digits without extending it. *)
Definition ends_run (rest : list ascii) : Prop :=
  match rest with c :: _ => digit_val c = None /\ (c =? "_")%char = false | [] => True end.

(** Reading back digits up to where they end. *)
Lemma scan_digits_app us ds rest acc n :
  Forall is_digit ds -> ends_run rest ->
  scan_digits us (map digit_char ds ++ rest) acc n = (digits_value ds acc, (n + length ds)%nat, rest).
Proof.
  revert acc n; induction ds as [|d ds IH]; intros acc n Hds Hr; cbn [map app].
  - rewrite Nat.add_0_r. destruct rest as [|c r]; [done|]. destruct Hr as [Hd Hu].
    cbn [scan_digits]. rewrite Hd. destruct n, r; try done. by rewrite Hu, andb_false_r.
  - inversion Hds; subst. cbn [scan_digits]. rewrite digit_val_char by done.
    rewrite IH by done. simpl. do 2 f_equal. lia.
Qed.

Lemma ndigits_fuel_bound f v : 0 <= v < 10 ^ Z.of_nat f -> v < 10 ^ Z.of_nat (ndigits_fuel f v).
Proof.
  revert v; induction f; intros v Hv; cbn [ndigits_fuel]; [lia|].
  destruct (Z.eqb_spec v 0) as [->|Hne]; [cbn; lia|].
  rewrite pow10_succ. rewrite pow10_succ in Hv.
  assert (v / 10 < 10 ^ Z.of_nat (ndigits_fuel f (v / 10))).
  { apply IHf. split; [apply Z.div_pos; lia|]. apply Z.div_lt_upper_bound; lia. }
  pose proof (Z.mod_pos_bound v 10). pose proof (Z.div_mod v 10). lia.
Qed.

Lemma ndigits_bound v : 0 <= v -> v < 10 ^ Z.of_nat (ndigits v).
Proof.
  intros Hv. unfold ndigits.
  assert (v < 10 ^ Z.of_nat (ndigits_fuel (S (Z.to_nat (Z.log2 v))) v)).
  { apply ndigits_fuel_bound. split; [done|].
    destruct (Z.eq_dec v 0) as [->|Hne]; [cbn; lia|].
    pose proof (Z.log2_spec v ltac:(lia)) as [_ Hlt].
    pose proof (Z.log2_nonneg v).
    rewrite Nat2Z.inj_succ, Z2Nat.id by lia.
    eapply Z.lt_le_trans; [exact Hlt|]. apply Z.pow_le_mono_l; lia. }
  eapply Z.lt_le_trans; [done|]. apply Z.pow_le_mono_r; lia.
Qed.

Lemma show_nat_scan us v rest acc :
  0 <= v -> ends_run rest ->
  scan_digits us (show_nat v ++ rest) acc 0 = (acc * 10 ^ Z.of_nat (ndigits v) + v, ndigits v, rest).
Proof.
  intros Hv Hr. unfold show_nat, digits_fixed.
  rewrite scan_digits_app by (apply dlist_range || done).
  rewrite dlist_value, dlist_length, Z.mod_small by (pose proof (ndigits_bound v Hv); lia).
  done.
Qed.

(** A printed natural number starts with a digit. *)
Lemma show_nat_head v : exists d r, is_digit d /\ show_nat v = digit_char d :: r.
Proof.
  unfold show_nat, digits_fixed. pose proof (dlist_length (ndigits v) v) as Hl.
  pose proof (dlist_range (ndigits v) v) as Hd.
  destruct (dlist (ndigits v) v) as [|d ds]; [unfold ndigits in Hl; simpl in Hl; lia|].
  inversion Hd; subst. by exists d, (map digit_char ds).
Qed.

(** A strip that leaves the characters of a numeral alone. *)
Definition spaceless (sp : ascii -> bool) : Prop :=
  sp "-"%char = false /\ sp "."%char = false /\ forall d, is_digit d -> sp (digit_char d) = false.

Lemma python_spaceless : spaceless is_space.
Proof. split_and!; [done|done|]. intros d Hd. apply (digit_char_not_space d Hd). Qed.

Lemma c_spaceless : spaceless c_space.
Proof. split_and!; [done|done|]. intros d Hd. apply (digit_char_not_space d Hd). Qed.

Section Spaceless.
Context (sp : ascii -> bool) (Hsp : spaceless sp).

Lemma digits_fixed_no_space k v : Forall (fun c => sp c = false) (digits_fixed k v).
Proof.
  apply Forall_map. eapply Forall_impl; [apply dlist_range|]. apply Hsp.
Qed.

Lemma lstrip_no_space l : Forall (fun c => sp c = false) l -> lstrip sp l = l.
Proof. destruct l as [|c l]; [done|]. intros Hl. inversion Hl as [|? ? Hc _]; subst. simpl. by rewrite Hc. Qed.

Lemma strip_no_space l : Forall (fun c => sp c = false) l -> strip sp l = l.
Proof.
  intros Hl. unfold strip. rewrite (lstrip_no_space l Hl).
  rewrite lstrip_no_space; [apply rev_involutive|]. by apply Forall_rev.
Qed.

Lemma show_int_no_space z : Forall (fun c => sp c = false) (show_int z).
Proof.
  unfold show_int. destruct (z <? 0); [constructor; [apply Hsp|]|]; apply digits_fixed_no_space.
Qed.

Lemma show_float_no_space q : Forall (fun c => sp c = false) (show_float q).
Proof.
  unfold show_float. apply Forall_app. split; [case_match; repeat constructor; apply Hsp|].
  apply Forall_app. split; [apply digits_fixed_no_space|].
  constructor; [apply Hsp | apply digits_fixed_no_space].
Qed.

End Spaceless.

Lemma ndigits_pos v : ndigits v = S (pred (ndigits v)).
Proof. unfold ndigits. lia. Qed.

(** The sign, then the digits: how both parsers start on a printed
    number. *)
Lemma scan_sign_show (neg : bool) v rest :
  scan_sign ((if neg then ["-"%char] else []) ++ show_nat v ++ rest) =
  (if neg then -1 else 1, show_nat v ++ rest).
Proof.
  destruct neg; [done|]. destruct (show_nat_head v) as (d & r & Hd & Hs).
  rewrite Hs. simpl app. by rewrite scan_sign_digit.
Qed.

(** A numeral parser reads back [str(z)]. *)
Lemma parse_int_show_int sx z :
  spaceless (sx_space sx) -> parse_int_with sx (string_of_list_ascii (show_int z)) = Some z.
Proof.
  intros Hsp. unfold parse_int_with.
  rewrite list_ascii_of_string_of_list_ascii, strip_no_space by (done || by apply show_int_no_space).
  assert (show_int z = (if z <? 0 then ["-"%char] else []) ++ show_nat (Z.abs z) ++ []) as ->.
  { unfold show_int. rewrite app_nil_r. destruct (Z.ltb_spec z 0).
    - by rewrite Z.abs_neq by lia.
    - by rewrite Z.abs_eq by lia. }
  rewrite scan_sign_show, show_nat_scan by (done || lia).
  rewrite ndigits_pos. f_equal. destruct (Z.ltb_spec z 0); lia.
Qed.

Lemma dec_exp_fuel_spec f k0 d k :
  dec_exp_fuel f k0 d = Some k -> (10 ^ Z.of_nat k) mod d = 0.
Proof.
  revert k0; induction f; intros k0; cbn [dec_exp_fuel]; [discriminate|].
  destruct (Z.eqb_spec ((10 ^ Z.of_nat k0) mod d) 0); [intros [= <-]; done|]. apply IHf.
Qed.

(** The denominator divides [10 ^ j] from the number of fractional
    digits on. *)
Lemma dec_exp_divides d k j :
  dec_exp d = Some k -> (k <= j)%nat -> (Zpos d | 10 ^ Z.of_nat j).
Proof.
  intros H Hj. apply dec_exp_fuel_spec, Z.mod_divide in H; [|lia].
  replace j with (k + (j - k))%nat by lia. rewrite Nat2Z.inj_add, Z.pow_add_r by lia.
  by apply Z.divide_mul_l.
Qed.

Lemma ends_run_point r : ends_run ("."%char :: r).
Proof. split; reflexivity. Qed.

(** A numeral parser reads a printed decimal [±ip.f] with [k]
    fractional digits as [±(ip * 10^k + f) / 10^k]. *)
Lemma parse_float_decimal sx (neg : bool) ip f k :
  spaceless (sx_space sx) -> 0 <= ip -> 0 <= f < 10 ^ Z.of_nat k -> (1 <= k)%nat ->
  parse_float_with sx (string_of_list_ascii
    ((if neg then ["-"%char] else []) ++ show_nat ip ++ "."%char :: digits_fixed k f)) =
  Some (Qred (((if neg then -1 else 1) * (ip * 10 ^ Z.of_nat k + f)) # Z.to_pos (10 ^ Z.of_nat k))).
Proof.
  intros Hsp Hip Hf Hk. unfold parse_float_with.
  rewrite list_ascii_of_string_of_list_ascii, strip_no_space.
  2:{ apply Forall_app; split; [destruct neg; repeat constructor; apply Hsp|].
      apply Forall_app; split; [by apply digits_fixed_no_space|].
      constructor; [apply Hsp | by apply digits_fixed_no_space]. }
  rewrite scan_sign_show, show_nat_scan by (done || apply ends_run_point).
  cbv iota beta. rewrite <- (app_nil_r (digits_fixed k f)). unfold digits_fixed.
  rewrite scan_digits_app by (apply dlist_range || done).
  rewrite dlist_value, dlist_length. rewrite (Z.mod_small f _ Hf).
  rewrite ndigits_pos. cbn [Nat.add Nat.eqb parse_exponent]. unfold scale10.
  rewrite (proj2 (Z.leb_gt 0 (0 - Z.of_nat k))) by lia.
  replace (- (0 - Z.of_nat k)) with (Z.of_nat k) by lia. do 3 f_equal; lia.
Qed.

(** A printed decimal has a point, so it is no integer numeral. *)
Lemma parse_int_decimal sx (neg : bool) ip frac :
  spaceless (sx_space sx) -> 0 <= ip -> Forall (fun c => sx_space sx c = false) frac ->
  parse_int_with sx (string_of_list_ascii
    ((if neg then ["-"%char] else []) ++ show_nat ip ++ "."%char :: frac)) = None.
Proof.
  intros Hsp Hip Hfr. unfold parse_int_with.
  rewrite list_ascii_of_string_of_list_ascii, strip_no_space.
  2:{ apply Forall_app; split; [destruct neg; repeat constructor; apply Hsp|].
      apply Forall_app; split; [by apply digits_fixed_no_space|].
      constructor; [apply Hsp | done]. }
  rewrite scan_sign_show, show_nat_scan by (done || apply ends_run_point). by destruct (ndigits ip).
Qed.

Lemma parse_int_show_float sx q :
  spaceless (sx_space sx) -> parse_int_with sx (string_of_list_ascii (show_float q)) = None.
Proof.
  intros Hsp. unfold show_float. apply parse_int_decimal; [done| |by apply digits_fixed_no_space].
  apply Z.div_pos; [apply Z.div_pos|]; pose proof (pow10_pos (Nat.max 1 (default 17%nat (dec_exp (Qden q))))); lia.
Qed.

(** [repr] reads back: a numeral parser maps the printed form of a
    reduced number with finite decimal expansion to that number. *)
Lemma parse_float_show_float sx q :
  spaceless (sx_space sx) -> Qred q = q -> finite_decimal q = true ->
  parse_float_with sx (string_of_list_ascii (show_float q)) = Some q.
Proof.
  intros Hsp Hred Hfin. unfold finite_decimal in Hfin. apply bool_decide_eq_true in Hfin.
  destruct (dec_exp (Qden q)) as [k0|] eqn:Hk; [|by destruct Hfin].
  unfold show_float. rewrite Hk. change (default 17%nat (Some k0)) with k0.
  set (k := Nat.max 1 k0). set (m := Z.abs (Qnum q) * 10 ^ Z.of_nat k / Zpos (Qden q)).
  pose proof (pow10_pos k) as Hp.
  assert (Zpos (Qden q) * m = Z.abs (Qnum q) * 10 ^ Z.of_nat k) as Hm.
  { symmetry. apply Z_div_exact_full_2; [lia|]. apply Z.mod_divide; [lia|].
    apply Z.divide_mul_r. apply (dec_exp_divides _ k0); [done|lia]. }
  assert (0 <= m) by (apply Z.div_pos; lia).
  rewrite parse_float_decimal; [|done|apply Z.div_pos; lia|apply Z.mod_pos_bound; lia|lia].
  f_equal. rewrite <- Hred at 2. apply Qred_complete.
  replace (m / 10 ^ Z.of_nat k * 10 ^ Z.of_nat k + m mod 10 ^ Z.of_nat k) with m
    by (pose proof (Z.div_mod m (10 ^ Z.of_nat k)); lia).
  unfold Qeq; cbn [Qnum Qden]. rewrite Z2Pos.id by done.
  destruct (Z.ltb_spec (Qnum q) 0).
  - rewrite Z.abs_neq in Hm by lia. nia.
  - rewrite Z.abs_eq in Hm by lia. nia.
Qed.

(** ** The tokenizer reads back what the writer writes *)

Lemma special_false c :
  special c = false ->
  (c =? comma)%char = false /\ (c =? dquote)%char = false /\
  (c =? nl)%char = false /\ (c =? cr)%char = false.
Proof. unfold special. rewrite !orb_false_iff. tauto. Qed.

Lemma fold_step_snoc l c t : fold_left step (l ++ [c]) t = step (fold_left step l t) c.
Proof. by rewrite fold_left_app. Qed.

(** The state after the characters [f] of an unquoted field, read from
    the start of a record ([first]) or after a comma. *)
Definition uq_state (first : bool) (f : list ascii) : tstate :=
  match f with
  | [] => if first then StartRecord else StartField
  | _ => if first && forallb is_blank f then WhitespaceLine else InField
  end.

Definition start_state (first : bool) : tstate := if first then StartRecord else StartField.

(** Run the tokenizer's step functions on known states. *)
Ltac tok_simpl :=
  unfold start_state, uq_state, step, start_record, start_field, in_field, push, goto,
    end_field, end_line;
  cbn [t_state t_field t_record t_out andb forallb];
  repeat match goal with H : (_ =? _)%char = false |- _ => rewrite H end;
  cbn [t_state t_field t_record t_out andb forallb].

Lemma unquoted_field first f rec out :
  Forall (fun c => special c = false) f ->
  fold_left step f (mkTok (start_state first) [] rec out) = mkTok (uq_state first f) (rev f) rec out.
Proof.
  induction f as [|c f IH] using rev_ind; [by destruct first|].
  rewrite Forall_app, Forall_singleton. intros [Hf Hc].
  rewrite fold_step_snoc, IH by done. rewrite rev_app_distr. cbn [rev app].
  destruct (special_false c Hc) as (H1 & H2 & H3 & H4).
  assert (uq_state first (f ++ [c]) = if first && forallb is_blank (f ++ [c]) then WhitespaceLine else InField) as ->
    by (destruct f; reflexivity).
  rewrite forallb_app. cbn [forallb]. rewrite andb_true_r.
  destruct f as [|c0 f0]; [destruct first|].
  - tok_simpl. destruct (is_blank c); tok_simpl; reflexivity.
  - tok_simpl. reflexivity.
  - cbn [uq_state]. destruct (first && forallb is_blank (c0 :: f0)) eqn:Hb.
    + apply andb_true_iff in Hb as [-> ->]. tok_simpl. destruct (is_blank c); tok_simpl; reflexivity.
    + rewrite andb_assoc, Hb. tok_simpl. reflexivity.
Qed.

Lemma inquoted_body f fld rec out :
  fold_left step (double_quotes f) (mkTok InQuoted fld rec out) = mkTok InQuoted (rev f ++ fld) rec out.
Proof.
  revert fld. induction f as [|c f IH]; intros fld; [done|]. cbn [double_quotes rev].
  rewrite <- app_assoc. cbn [app].
  destruct (Ascii.eqb_spec c dquote) as [->|Hne].
  - cbn [fold_left]. apply IH.
  - cbn [fold_left]. apply Ascii.eqb_neq in Hne. unfold step at 2. cbn [t_state]. rewrite Hne.
    apply IH.
Qed.

Lemma quoted_field first f rec out :
  fold_left step (dquote :: double_quotes f ++ [dquote]) (mkTok (start_state first) [] rec out) =
  mkTok QuoteInQuoted (rev f) rec out.
Proof.
  cbn [fold_left]. replace (step _ dquote) with (mkTok InQuoted [] rec out) by (destruct first; reflexivity).
  rewrite fold_step_snoc, inquoted_body, app_nil_r. reflexivity.
Qed.

(** The state after a whole written field. *)
Definition field_state (first : bool) (f : list ascii) : tstate :=
  if needs_quote f then QuoteInQuoted else uq_state first f.

Lemma write_field_steps first f rec out :
  fold_left step (write_field f) (mkTok (start_state first) [] rec out) =
  mkTok (field_state first f) (rev f) rec out.
Proof.
  unfold write_field, field_state. destruct (needs_quote f) eqn:Hq; [apply quoted_field|].
  apply unquoted_field. unfold needs_quote in Hq.
  apply Forall_forall. intros c Hc. destruct (special c) eqn:E; [|done].
  exfalso. assert (existsb special f = true) as H; [|congruence].
  apply existsb_exists. exists c. split; [by apply list_elem_of_In|done].
Qed.

Lemma step_comma st fld rec out :
  st <> InQuoted -> st <> EatCRNL ->
  step (mkTok st fld rec out) comma = mkTok StartField [] (rev fld :: rec) out.
Proof. destruct st; try congruence; reflexivity. Qed.

Lemma step_nl st fld rec out :
  st = StartField \/ st = InField \/ st = QuoteInQuoted ->
  step (mkTok st fld rec out) nl = mkTok StartRecord [] [] (rev (rev fld :: rec) :: out).
Proof. intros [->|[->| ->]]; reflexivity. Qed.

Lemma field_state_open first f : field_state first f <> InQuoted /\ field_state first f <> EatCRNL.
Proof.
  unfold field_state, uq_state. destruct (needs_quote f); [done|].
  destruct f; [destruct first|destruct (first && _)]; done.
Qed.

Lemma join_row fs first rec out :
  fs <> [] -> (first = true -> writable_row fs = true /\ fs <> [[]]) ->
  fold_left step (join_fields fs ++ [nl]) (mkTok (start_state first) [] rec out) =
  mkTok StartRecord [] [] ((rev rec ++ fs) :: out).
Proof.
  revert first rec. induction fs as [|f fs IH]; intros first rec Hne Hw; [done|].
  destruct fs as [|f2 fs].
  - cbn [join_fields]. rewrite fold_step_snoc, write_field_steps, step_nl.
    + by rewrite rev_involutive.
    + unfold field_state, uq_state. destruct (needs_quote f); [auto|].
      destruct f as [|c f]; destruct first; try auto.
      * by destruct (Hw eq_refl).
      * destruct (Hw eq_refl) as [Hb _]. cbn [andb]. cbn [writable_row] in Hb.
        destruct (forallb is_blank (c :: f)); [|auto].
        rewrite bool_decide_true in Hb by done. discriminate.
  - change (join_fields (f :: f2 :: fs)) with (write_field f ++ comma :: join_fields (f2 :: fs)).
    rewrite <- app_assoc. cbn [app]. rewrite fold_left_app, write_field_steps.
    cbn [fold_left]. destruct (field_state_open first f) as [H1 H2].
    rewrite step_comma by done. rewrite rev_involutive.
    change (mkTok StartField [] (f :: rec) out) with (mkTok (start_state false) [] (f :: rec) out).
    rewrite (IH false (f :: rec)); [|done|done]. cbn [rev]. by rewrite <- app_assoc.
Qed.

Lemma write_row_steps fs out :
  writable_row fs = true ->
  fold_left step (write_row fs) (mkTok StartRecord [] [] out) = mkTok StartRecord [] [] (fs :: out).
Proof.
  intros Hw. destruct fs as [|f fs]; [done|].
  destruct (decide (f :: fs = [[]])) as [->|Hne]; [reflexivity|].
  assert (write_row (f :: fs) = join_fields (f :: fs) ++ [nl]) as ->.
  { unfold write_row. destruct f, fs; done. }
  apply (join_row _ true []); [done|]. done.
Qed.

Lemma write_rows_steps rows out :
  Forall (fun fs => writable_row fs = true) rows ->
  fold_left step (write_rows rows) (mkTok StartRecord [] [] out) =
  mkTok StartRecord [] [] (rev rows ++ out).
Proof.
  revert out. induction rows as [|fs rows IH]; intros out Hw; [done|].
  inversion Hw; subst. unfold write_rows. cbn [map concat]. rewrite fold_left_app.
  rewrite write_row_steps by done. fold (write_rows rows). rewrite IH by done.
  cbn [rev]. by rewrite <- app_assoc.
Qed.

Lemma tokenize_write_rows_ok rows :
  Forall (fun fs => writable_row fs = true) rows -> tokenize (write_rows rows) = Ok rows.
Proof.
  intros Hw. unfold tokenize, tok_init. rewrite write_rows_steps by done.
  cbn. by rewrite app_nil_r, rev_involutive.
Qed.

(** C: pandas' tokenizer reads back every record the [csv] writer writes:
    fields holding commas, quotes or line breaks come back unchanged. *)
Theorem tokenize_write_rows rows :
  Forall (fun fs => writable_row fs = true) rows -> tokenize (write_rows rows) = Ok rows.
Proof. exact (tokenize_write_rows_ok rows). Qed.

(** ** Witnesses *)

(** Records with a quote, a comma and a line break inside fields, and a
    record of empty fields. *)
Definition sample_records : list (list (list ascii)) :=
  [[list_ascii_of_string "Year"; list_ascii_of_string "Note"];
   [list_ascii_of_string "2019"; dquote :: list_ascii_of_string "x, y" ++ [nl]];
   [[]; []]].

Lemma tokenize_write_rows_witness :
  Forall (fun fs => writable_row fs = true) sample_records /\
  tokenize (write_rows sample_records) = Ok sample_records.
Proof.
  split; [repeat constructor|]. apply tokenize_write_rows. repeat constructor.
Defined.

End Text.
