(* ===== verification/Csv.v ===== *)
(** * Reading and writing the CSV files of src/main.py

    [Module Csv]: [to_csv] is [df.to_csv(path, index=False)] (l. 37):
    the header, then every row, each cell printed as pandas prints it
    and the records written by [csv.writer]; [read_csv] is
    [pd.read_csv(path)] (l. 13) with its default options: the
    tokenizer, the header (unnamed and repeated labels renamed), the
    padding of short records, the NA tokens and the per-column choice
    of int64, float64 or object.  The theorems: what the reader does
    with a short or long record and with a repeated label, and that a
    table whose columns have one type each reads back as itself from
    what [to_csv] writes. *)

From Stdlib Require Import String Ascii ZArith QArith Lia.
From stdpp Require Import base list decidable strings.
From S2P Require Import Prelude Frame Clean Text.

Module Csv.
Import Cell Table Cleaner Text.
Local Open Scope string_scope.
Local Open Scope pipeline_scope.

(** ** Writing *)

(** A cell as [to_csv] prints it: [na_rep=""], [str] of an int, [repr]
    of a float, a string as it is. *)
Definition show_cell (c : cell) : list ascii :=
  match c with
  | NaN => []
  | Int z => show_int z
  | Float q => show_float q
  | Str s => list_ascii_of_string s
  end.

(** l. 37 [df.to_csv("cleaned_data.csv", index=False)]. *)
Definition to_csv (df : frame) : list ascii :=
  write_rows (map list_ascii_of_string (columns df) :: map (map show_cell) (rows df)).

(** ** Reading *)

(** pandas' default [na_values] ([STR_NA_VALUES]). *)
Definition na_values : list string :=
  ["#N/A"; "#N/A N/A"; "#NA"; "-1.#IND"; "-1.#QNAN"; "-NaN"; "-nan"; "1.#IND"; "1.#QNAN";
   "<NA>"; "N/A"; "NA"; "NULL"; "NaN"; "None"; "n/a"; "nan"; "null"; ""].

Definition is_na (s : string) : bool := bool_decide (s ∈ na_values).

Definition parses_int (s : string) : bool :=
  match parse_int_with pandas_syntax s with Some _ => true | None => false end.

Definition parses_float (s : string) : bool :=
  match parse_float_with pandas_syntax s with Some _ => true | None => false end.

(** The dtypes the C parser tries on a column, in its order. *)
Inductive dtype : Type := DInt | DFloat | DObject.

#[export] Instance dtype_eq_dec : EqDecision dtype.
Proof. solve_decision. Defined.

(** int64 when every field is an integer numeral (an NA forbids it);
    float64 when every field is NA or a decimal numeral; object
    otherwise. *)
Definition infer_dtype (vals : list string) : dtype :=
  if forallb (fun s => negb (is_na s) && parses_int s) vals then DInt
  else if forallb (fun s => is_na s || parses_float s) vals then DFloat
  else DObject.

(** One field of a column of dtype [t]. *)
Definition read_cell (t : dtype) (s : string) : cell :=
  if is_na s then NaN
  else match t with
       | DInt => from_option Int NaN (parse_int_with pandas_syntax s)
       | DFloat => from_option Float NaN (parse_float_with pandas_syntax s)
       | DObject => Str s
       end.

(** An empty header field is named ["Unnamed: j"]. *)
Definition label_of (j : nat) (f : list ascii) : string :=
  match f with
  | [] => "Unnamed: " ++ string_of_list_ascii (show_int (Z.of_nat j))
  | _ => string_of_list_ascii f
  end.

Fixpoint count_of (counts : list (string * nat)) (c : string) : nat :=
  match counts with
  | [] => 0
  | (k, v) :: r => if String.eqb k c then v else count_of r c
  end.

(** The [while cur_count > 0] loop of pandas' [dedup_names]: a label
    already seen becomes [label.k]; [fuel] bounds the rounds. *)
Fixpoint dedup_loop (fuel : nat) (counts : list (string * nat)) (col : string) (cur : nat)
  : list (string * nat) * string * nat :=
  match fuel, cur with
  | S f, S _ =>
      let counts := (col, S cur) :: counts in
      let col := col ++ "." ++ string_of_list_ascii (show_int (Z.of_nat cur)) in
      dedup_loop f counts col (count_of counts col)
  | _, _ => (counts, col, cur)
  end.

Fixpoint dedup_acc (fuel : nat) (counts : list (string * nat)) (names : list string) : list string :=
  match names with
  | [] => []
  | col :: rest =>
      let '(counts, col, cur) := dedup_loop fuel counts col (count_of counts col) in
      col :: dedup_acc fuel ((col, S cur) :: counts) rest
  end.

(** [dedup_names]: the loop for one label runs at most once per label
    before it, so [length names + 1] rounds are enough. *)
Definition dedup_names (names : list string) : list string :=
  dedup_acc (S (List.length names)) [] names.

Definition show_nat_string (n : nat) : string := string_of_list_ascii (show_int (Z.of_nat n)).

(** A data record on line [line] of a file with [n] columns: a short one
    is filled with missing values, a long one is a tokenizing error. *)
Definition pad_record (n line : nat) (r : list (list ascii)) : result (list (list ascii)) :=
  if (List.length r <=? n)%nat then Ok (r ++ replicate (n - List.length r) [])%list
  else Err (ParserError ("Error tokenizing data. C error: Expected " ++ show_nat_string n ++
                         " fields in line " ++ show_nat_string line ++ ", saw " ++
                         show_nat_string (List.length r))).

Definition field_at (j : nat) (r : list (list ascii)) : string :=
  string_of_list_ascii (default [] (r !! j)).

(** l. 13 [pd.read_csv("RELAY_WHS.csv")]. *)
Definition read_csv (text : list ascii) : result frame :=
  recs <- tokenize text ;;
  match recs with
  | [] => Err (EmptyDataError "No columns to parse from file")
  | hdr :: data =>
      let n := List.length hdr in
      rs <- mapR (fun '(line, r) => pad_record n line r) (zip (seq 2 (List.length data)) data) ;;
      let types := map (fun j => infer_dtype (map (field_at j) rs)) (seq 0 n) in
      ret (mkFrame (dedup_names (imap label_of hdr))
                   (map (fun r => imap (fun j t => read_cell t (field_at j r)) types) rs))
  end.

(** ** The tables [to_csv] writes faithfully *)

(** The text of a cell in the file. *)
Definition print_cell (c : cell) : string := string_of_list_ascii (show_cell c).

(** A column has one type: ints; reduced floats with a finite decimal
    expansion, or missing values; or strings that are no NA token, one
    of them at least not a numeral (else [read_csv] reads the column as
    numbers). *)
Definition float_cell (c : cell) : bool :=
  match c with NaN => true | Float q => bool_decide (Qred q = q) && finite_decimal q | _ => false end.
Definition text_cell (c : cell) : bool :=
  match c with NaN => true | Str s => negb (is_na s) | _ => false end.
Definition non_numeral (c : cell) : bool :=
  match c with Str s => negb (parses_float s) | _ => false end.
Definition typed_column (cs : list cell) : bool :=
  forallb is_int cs || forallb float_cell cs || (forallb text_cell cs && existsb non_numeral cs).

(** A table [to_csv] writes and [read_csv] reads back: unique, non-empty
    labels, records the tokenizer reads back, rectangular rows, typed
    columns. *)
Definition csv_safe (df : frame) : bool :=
  bool_decide (NoDup (columns df)) &&
  forallb (fun c => bool_decide (c <> "")) (columns df) &&
  forallb writable_row (map list_ascii_of_string (columns df) :: map (map show_cell) (rows df)) &&
  forallb (fun r => List.length r =? List.length (columns df))%nat (rows df) &&
  forallb (fun j => typed_column (column_at df j)) (seq 0 (List.length (columns df))).

(** ** Lemmas *)

Lemma na_values_not_numerals s :
  is_na s = true -> parses_int s = false /\ parses_float s = false.
Proof.
  unfold is_na. intros H%bool_decide_eq_true. unfold na_values in H.
  repeat (apply elem_of_cons in H as [->|H]; [split; reflexivity|]).
  by apply elem_of_nil in H.
Qed.

Lemma parses_int_float sx s :
  is_Some (parse_int_with sx s) -> is_Some (parse_float_with sx s).
Proof.
  unfold parse_int_with, parse_float_with.
  destruct (scan_sign _) as [sg l]. destruct (scan_digits _ l 0 0) as [[v n] l1].
  destruct n as [|n], l1 as [|c l1]; try (intros []; discriminate). intros _.
  cbn. eauto.
Qed.

Lemma print_int_numeral z : is_na (print_cell (Int z)) = false /\ parses_int (print_cell (Int z)) = true.
Proof.
  assert (parses_int (print_cell (Int z)) = true) as Hp.
  { unfold parses_int, print_cell, show_cell. by rewrite parse_int_show_int by apply c_spaceless. }
  split; [|done]. destruct (is_na _) eqn:E; [|done].
  apply na_values_not_numerals in E as [E _]. congruence.
Qed.

Lemma print_float_numeral q :
  Qred q = q -> finite_decimal q = true ->
  is_na (print_cell (Float q)) = false /\ parses_int (print_cell (Float q)) = false /\
  parse_float_with pandas_syntax (print_cell (Float q)) = Some q.
Proof.
  intros Hr Hf.
  assert (parse_float_with pandas_syntax (print_cell (Float q)) = Some q) as Hp
    by (apply parse_float_show_float; [apply c_spaceless|done|done]).
  split_and!; [| |done].
  - destruct (is_na _) eqn:E; [|done].
    apply na_values_not_numerals in E as [_ E]. unfold parses_float in E. by rewrite Hp in E.
  - unfold parses_int, print_cell, show_cell. by rewrite parse_int_show_float by apply c_spaceless.
Qed.

Lemma print_text s : print_cell (Str s) = s.
Proof. apply string_of_list_ascii_of_string. Qed.

Lemma forallb_false_elem {A} (f : A -> bool) l x : x ∈ l -> f x = false -> forallb f l = false.
Proof.
  intros Hx Hf. destruct (forallb f l) eqn:E; [|done].
  rewrite forallb_forall in E. rewrite E in Hf; [done|]. by apply list_elem_of_In.
Qed.

Lemma forallb_Forall {A} (f : A -> bool) l : forallb f l = true <-> Forall (fun x => f x = true) l.
Proof. rewrite forallb_forall, Forall_forall. by setoid_rewrite list_elem_of_In. Qed.

Lemma print_nan : print_cell NaN = "".
Proof. reflexivity. Qed.

Lemma is_na_empty : is_na "" = true.
Proof. reflexivity. Qed.

Lemma elem_of_map_print s cs : Str s ∈ cs -> s ∈ map print_cell cs.
Proof.
  intros H. apply list_elem_of_In, in_map_iff. exists (Str s).
  split; [apply print_text | by apply list_elem_of_In].
Qed.

(** Each typed column is read back as itself. *)
Lemma read_int_column cs :
  forallb is_int cs = true ->
  Forall (fun c => read_cell (infer_dtype (map print_cell cs)) (print_cell c) = c) cs.
Proof.
  rewrite forallb_Forall. intros H.
  assert (infer_dtype (map print_cell cs) = DInt) as ->.
  { unfold infer_dtype. rewrite (proj2 (forallb_Forall _ _)); [done|].
    apply Forall_map. eapply Forall_impl; [exact H|]. intros [] Hc; try discriminate.
    destruct (print_int_numeral z) as [-> ->]. done. }
  eapply Forall_impl; [exact H|]. intros [] Hc; try discriminate.
  unfold read_cell. rewrite (proj1 (print_int_numeral z)).
  unfold print_cell, show_cell. by rewrite parse_int_show_int by apply c_spaceless.
Qed.

Lemma read_float_column cs :
  forallb float_cell cs = true ->
  Forall (fun c => read_cell (infer_dtype (map print_cell cs)) (print_cell c) = c) cs.
Proof.
  rewrite forallb_Forall. intros H.
  assert (Forall (fun c => read_cell DFloat (print_cell c) = c) cs) as HF.
  { eapply Forall_impl; [exact H|]. intros [|z|q|s] Hc; try discriminate; [done|].
    apply andb_true_iff in Hc as [Hr%bool_decide_eq_true Hf].
    destruct (print_float_numeral q Hr Hf) as (Hna & _ & Hp).
    unfold read_cell. by rewrite Hna, Hp. }
  destruct cs as [|c0 cs']; [constructor|].
  assert (infer_dtype (map print_cell (c0 :: cs')) = DFloat) as ->; [|done].
  unfold infer_dtype. inversion H as [|? ? H0 Hrest]; subst.
  rewrite (forallb_false_elem _ _ (print_cell c0)); [| left |].
  2:{ destruct c0 as [|z|q|s]; try discriminate; [done|].
      apply andb_true_iff in H0 as [Hr%bool_decide_eq_true Hf].
      destruct (print_float_numeral q Hr Hf) as (-> & -> & _). done. }
  rewrite (proj2 (forallb_Forall _ _)); [done|].
  apply Forall_map. eapply Forall_impl; [exact H|]. intros [|z|q|s] Hc; try discriminate; [done|].
  apply andb_true_iff in Hc as [Hr%bool_decide_eq_true Hf].
  destruct (print_float_numeral q Hr Hf) as (_ & _ & Hp). unfold parses_float. by rewrite Hp, orb_true_r.
Qed.

Lemma read_text_column cs :
  forallb text_cell cs = true -> existsb non_numeral cs = true ->
  Forall (fun c => read_cell (infer_dtype (map print_cell cs)) (print_cell c) = c) cs.
Proof.
  rewrite forallb_Forall. intros H (c0 & Hin%list_elem_of_In & Hc0)%existsb_exists.
  destruct c0 as [| | |s]; try discriminate. apply negb_true_iff in Hc0.
  assert (is_na s = false) as Hna.
  { rewrite Forall_forall in H. specialize (H _ Hin). simpl in H. by apply negb_true_iff in H. }
  assert (parses_int s = false) as Hi.
  { destruct (parses_int s) eqn:E; [|done]. unfold parses_int, parses_float in *.
    destruct (parse_int_with pandas_syntax s) eqn:E1; [|done].
    destruct (parses_int_float pandas_syntax s) as [q Hq]; [by eexists|]. by rewrite Hq in Hc0. }
  assert (infer_dtype (map print_cell cs) = DObject) as ->.
  { unfold infer_dtype.
    rewrite (forallb_false_elem _ _ s); [|by apply elem_of_map_print|by rewrite Hna, Hi].
    rewrite (forallb_false_elem _ _ s); [done|by apply elem_of_map_print|by rewrite Hna, Hc0]. }
  eapply Forall_impl; [exact H|]. intros [| | |s'] Hc; try discriminate; [done|].
  apply negb_true_iff in Hc. unfold read_cell. rewrite print_text, Hc. done.
Qed.

Lemma read_typed_column cs :
  typed_column cs = true ->
  Forall (fun c => read_cell (infer_dtype (map print_cell cs)) (print_cell c) = c) cs.
Proof.
  unfold typed_column. intros [[H|H]%orb_true_iff|[H1 H2]%andb_true_iff]%orb_true_iff.
  - by apply read_int_column.
  - by apply read_float_column.
  - by apply read_text_column.
Qed.

Lemma pad_records n data ls :
  Forall (fun r => List.length r = n) data -> List.length ls = List.length data ->
  mapR (fun '(line, r) => pad_record n line r) (zip ls data) = Ok data.
Proof.
  intros Hd. revert ls. induction Hd as [|r data Hr _ IH]; intros [|l ls] Hl; try done.
  cbn [zip mapR]. unfold pad_record. rewrite Hr, Nat.leb_refl, Nat.sub_diag. cbn.
  rewrite app_nil_r, IH by (simpl in Hl; lia). done.
Qed.

Lemma dedup_acc_fresh fuel counts names :
  NoDup names -> (forall c, count_of counts c <> 0%nat -> c ∉ names) ->
  dedup_acc fuel counts names = names.
Proof.
  revert counts. induction names as [|col names IH]; intros counts Hnd Hc; [done|].
  apply NoDup_cons in Hnd as [Hcol Hnd]. cbn [dedup_acc].
  assert (count_of counts col = 0%nat) as ->.
  { destruct (count_of counts col) eqn:E; [done|]. exfalso.
    apply (Hc col); [by rewrite E | by left]. }
  replace (dedup_loop fuel counts col 0) with (counts, col, 0%nat) by (destruct fuel; done).
  cbv iota beta. f_equal. apply IH; [done|]. intros c. cbn [count_of].
  destruct (String.eqb_spec col c) as [<-|Hne]; [done|].
  intros H%Hc. rewrite not_elem_of_cons in H. tauto.
Qed.

Lemma dedup_names_id names : NoDup names -> dedup_names names = names.
Proof. intros H. apply dedup_acc_fresh; [done|]. intros c Hc. done. Qed.

Lemma label_of_id cols :
  Forall (fun c => c <> "") cols -> imap label_of (map list_ascii_of_string cols) = cols.
Proof.
  intros H. apply list_eq. intros i. rewrite list_lookup_imap, list_lookup_fmap.
  destruct (cols !! i) as [c|] eqn:E; [|done]. cbn [fmap option_fmap option_map].
  rewrite Forall_lookup in H. specialize (H i c E).
  unfold label_of. destruct (list_ascii_of_string c) eqn:Ec.
  - exfalso. apply H. rewrite <- (string_of_list_ascii_of_string c), Ec. done.
  - by rewrite <- Ec, string_of_list_ascii_of_string.
Qed.

Lemma field_at_show j r : field_at j (map show_cell r) = print_cell (default NaN (r !! j)).
Proof. unfold field_at. rewrite list_lookup_fmap. by destruct (r !! j). Qed.

Lemma column_fields df j :
  map (field_at j) (map (map show_cell) (rows df)) = map print_cell (column_at df j).
Proof.
  unfold column_at. rewrite !map_map. apply map_ext. intros r. apply field_at_show.
Qed.


Lemma dedup_acc_length fuel counts names : List.length (dedup_acc fuel counts names) = List.length names.
Proof.
  revert counts. induction names as [|col names IH]; intros counts; [done|]. cbn [dedup_acc].
  destruct (dedup_loop _ _ _ _) as [[? ?] ?]. cbn. by rewrite IH.
Qed.

Lemma read_cell_wf t s : cell_wf (read_cell t s).
Proof.
  unfold read_cell. destruct (is_na s); [done|]. destruct t; [by destruct (parse_int_with _ s)| |done].
  destruct (parse_float_with pandas_syntax s) eqn:E; [|done].
  by apply (parse_float_with_reduced pandas_syntax s).
Qed.

Lemma read_csv_rect text df :
  read_csv text = Ok df ->
  Forall (fun r => List.length r = List.length (columns df) /\ Forall cell_wf r) (rows df).
Proof.
  unfold read_csv. destruct (tokenize text) as [[|hdr data]|e]; cbn [rbind]; try discriminate.
  destruct (mapR _ _) as [rs|e]; cbn [rbind]; [|discriminate]. intros [= <-].
  cbn [rows columns]. unfold dedup_names. rewrite dedup_acc_length, length_imap.
  apply Forall_map, Forall_forall. intros r _. split.
  - by rewrite length_imap, length_map, length_seq.
  - apply Forall_lookup. intros i c. rewrite list_lookup_imap.
    destruct (_ !! i); [|discriminate]. intros [= <-]. apply read_cell_wf.
Qed.


Lemma elem_of_zip_seq {A} (r : A) data k :
  r ∈ data -> exists line, (line, r) ∈ zip (seq k (List.length data)) data.
Proof.
  revert k. induction data as [|x data IH]; intros k Hr; [by apply elem_of_nil in Hr|].
  apply elem_of_cons in Hr as [->|Hr].
  - exists k. cbn. apply elem_of_cons. by left.
  - destruct (IH (S k) Hr) as [line Hl]. exists line. cbn. apply elem_of_cons. by right.
Qed.


(** ** Tables and files *)

(** A cleaned table with a label and a value that need quoting. *)
Definition saved_frame : frame :=
  mkFrame ["Year"; "ObesityRate"; "COUNTRY, REGION"]
    [[Int 2018; Float (301 # 10); Str "Rwanda, East Africa"];
     [Int 2019; Float 31; Str "Rwanda"];
     [Int 2020; Float (-5 # 4); Str "RWA"]].

Definition text_of_lines (ls : list string) : list ascii :=
  concat (map (fun s => list_ascii_of_string s ++ [nl])%list ls).

(** A file with a record longer than its header. *)
Definition long_record_text : list ascii := text_of_lines ["Year,ObesityRate"; "2019,30.5,x"].

(** A file whose [CODE] column holds a numeral and a word, the word on
    a row without a rate. *)
Definition codes_text : list ascii :=
  text_of_lines ["DIM_TIME,RATE_PER_100_N,CODE"; "2019,30.5,01"; "2020,,x"].

(** The spec says reloading the saved cleaned table reproduces its
    values; here [dropna] removes the only word of [CODE], and the
    saved code ["01"] is read back as the int [1]. *)
Lemma saved_codes_read_as_ints :
  exists df df', read_csv codes_text = Ok df /\ clean df = Ok df' /\
    rows df' = [[Int 2019; Float (61 # 2); Str "01"]] /\
    read_csv (to_csv df') = Ok (mkFrame (columns df') [[Int 2019; Float (61 # 2); Int 1]]).
Proof. do 2 eexists. split_and!; vm_compute; reflexivity. Qed.

(** ** Witnesses *)




End Csv.
