(* ===== verification/Format.v ===== *)
(** * The forecast lines src/main.py prints (l. 64-66)

    [Module Format]: [format_2f] is Python's [format(x, ".2f")] on the
    value of a float (rounded half to even, the sign kept), and
    [forecast_line] the f-string [f"{year}: {rate:.2f}%"] of l. 66;
    [forecast_output] is the loop of l. 65-66 over the pairs of
    [zip(future_years["Year"], predictions)].  The theorems: the
    rounding is to the nearest hundredth, ties to even, and the printed
    number reads back within half a hundredth of the prediction. *)

From Stdlib Require Import String Ascii ZArith QArith Qabs Lia Lqa.
From stdpp Require Import base list decidable strings.
From S2P Require Import Prelude Frame Text.

Module Format.
Import Cell Text.
Local Open Scope Z_scope.

(** The integer nearest to [q], the even one on a tie. *)
Definition round_half_even (q : Q) : Z :=
  let n := Qnum q in
  let d := Zpos (Qden q) in
  let fl := n / d in
  let r := n mod d in
  if (2 * r <? d)%Z then fl
  else if (d <? 2 * r)%Z then fl + 1
  else if Z.even fl then fl else fl + 1.

(** [format(x, ".2f")]: two fractional digits, a minus sign when [x] is
    negative (so [-0.001] prints as ["-0.00"]). *)
Definition format_2f (q : Q) : list ascii :=
  let m := round_half_even (Qabs q * 100)%Q in
  (if (Qnum q <? 0)%Z then ["-"%char] else [])
    ++ show_nat (m / 100) ++ "."%char :: digits_fixed 2 (m mod 100).

(** l. 66 [f"{year}: {rate:.2f}%"]. *)
Definition forecast_line (year : Z) (rate : Q) : list ascii :=
  show_int year ++ list_ascii_of_string ": " ++ format_2f rate ++ ["%"%char].

(** l. 65-66: one line per pair, in order. *)
Definition forecast_output (pairs : list (Z * Q)) : list (list ascii) :=
  map (fun '(y, v) => forecast_line y v) pairs.

(** ** Rounding *)

Lemma round_half_even_correct q :
  (Qabs (inject_Z (round_half_even q) - q) <= 1 # 2)%Q /\
  ((inject_Z (round_half_even q) - q == 1 # 2)%Q \/ (q - inject_Z (round_half_even q) == 1 # 2)%Q ->
   Z.even (round_half_even q) = true).
Proof.
  destruct q as [n d]. unfold round_half_even. cbn [Qnum Qden].
  pose proof (Z.div_mod n (Zpos d) ltac:(lia)) as Hnd.
  pose proof (Z.mod_pos_bound n (Zpos d) ltac:(lia)) as Hr.
  set (fl := n / Zpos d) in *. set (r := n mod Zpos d) in *. clearbody fl r. subst n.
  unfold Qabs, Qminus, Qplus, Qopp, Qle, Qeq, inject_Z; cbn [Qnum Qden].
  rewrite !Pos2Z.inj_mul.
  destruct (Z.ltb_spec (2 * r) (Zpos d)); [|destruct (Z.ltb_spec (Zpos d) (2 * r));
    [|destruct (Z.even fl) eqn:He]].
  all: split; [lia|].
  all: intros [H'|H']; try lia.
  all: try done.
  all: rewrite Z.even_add, He; reflexivity.
Qed.

Lemma round_half_even_nonneg q : (0 <= q)%Q -> 0 <= round_half_even q.
Proof.
  intros Hq. destruct (round_half_even_correct q) as [Hb _].
  apply Qabs_Qle_condition in Hb as [Hl _].
  destruct (Z.le_gt_cases 0 (round_half_even q)) as [|Hneg]; [done|]. exfalso.
  assert (inject_Z (round_half_even q) <= inject_Z (-1))%Q by (rewrite <- Zle_Qle; lia).
  change (inject_Z (-1)) with (-1)%Q in *.
  lra.
Qed.

Lemma Qmake_inject (a : Z) (b : positive) : (a # b == inject_Z a / inject_Z (Zpos b))%Q.
Proof. rewrite Qmake_Qdiv. reflexivity. Qed.

(** C: the rounding of [format(x, ".2f")] is to the nearest integer,
    and to the even one when [x] lies half-way between two. *)
Theorem round_half_even_spec q :
  (Qabs (inject_Z (round_half_even q) - q) <= 1 # 2)%Q /\
  ((inject_Z (round_half_even q) - q == 1 # 2)%Q \/ (q - inject_Z (round_half_even q) == 1 # 2)%Q ->
   Z.even (round_half_even q) = true).
Proof. exact (round_half_even_correct q). Qed.

(** C: the number [format(x, ".2f")] prints reads back, by [float], as a
    value within half a hundredth of [x]. *)
Theorem format_2f_close q :
  exists v, parse_float (string_of_list_ascii (format_2f q)) = Some v /\ (Qabs (v - q) <= 1 # 200)%Q.
Proof.
  set (m := round_half_even (Qabs q * 100)).
  assert (0 <= m) as Hm.
  { apply round_half_even_nonneg. pose proof (Qabs_nonneg q). lra. }
  destruct (round_half_even_correct (Qabs q * 100)) as [Hb _]. fold m in Hb.
  apply Qabs_Qle_condition in Hb as [Hl Hu].
  unfold format_2f, parse_float. fold m.
  rewrite (parse_float_decimal python_syntax (Qnum q <? 0) (m / 100) (m mod 100) 2);
    [| apply python_spaceless | apply Z.div_pos; lia | apply Z.mod_pos_bound; reflexivity | lia].
  eexists. split; [reflexivity|].
  replace (m / 100 * 10 ^ Z.of_nat 2 + m mod 100) with m by (cbn; pose proof (Z.div_mod m 100); lia).
  rewrite Qred_correct. change (Z.to_pos (10 ^ Z.of_nat 2)) with 100%positive.
  rewrite Qmake_inject, inject_Z_mult. change (inject_Z (Zpos 100)) with 100%Q.
  apply Qabs_Qle_condition.
  destruct (Z.ltb_spec (Qnum q) 0) as [Hneg|Hpos].
  - assert (q < 0)%Q as Hq by (unfold Qlt; simpl; lia).
    rewrite Qabs_neg in Hl, Hu by lra. change (inject_Z (-1)) with (-1)%Q.
    unfold Qdiv. change (/ 100)%Q with (1 # 100)%Q. split; lra.
  - assert (0 <= q)%Q as Hq by (unfold Qle; simpl; lia).
    rewrite Qabs_pos in Hl, Hu by lra. change (inject_Z 1) with 1%Q.
    unfold Qdiv. change (/ 100)%Q with (1 # 100)%Q. split; lra.
Qed.

(** ** Witnesses *)

Lemma round_half_even_spec_witness :
  round_half_even (25 # 2) = 12%Z /\ Z.even (round_half_even (25 # 2)) = true.
Proof.
  split; [reflexivity|]. apply (round_half_even_spec (25 # 2)). right. reflexivity.
Defined.

End Format.
