(* ===== verification/Regression.v ===== *)
(** * scikit-learn's [LinearRegression] on one feature (src/main.py l. 53-61)

    [Module OLS]: [fit] follows [LinearRegression.fit] with
    [fit_intercept=True] for one feature: reject an empty sample
    ([check_array]'s [ValueError]), centre [X] and [y] on their means
    ([_preprocess_data]), solve the centred least-squares problem
    ([scipy.linalg.lstsq], whose minimum-norm solution is [0] when the
    centred feature is identically zero), then recover the intercept
    ([_set_intercept]).  [predict] is [X @ coef_ + intercept_].
    Arithmetic is exact ([Q]).  The record [Regressor] is what the
    forecaster needs of an estimator; [sklearn] implements it. *)

From Stdlib Require Import String QArith Qfield Lqa Lia List ZArith Setoid Morphisms.
From S2P Require Import Prelude.
Import ListNotations.

Module OLS.
Local Open Scope Q_scope.

(** A sample: the year (as the float64 [check_array] makes of it) and
    the rate. *)
Definition sample : Type := (Q * Q)%type.

Fixpoint sum (f : sample -> Q) (s : list sample) : Q :=
  match s with
  | [] => 0
  | p :: s' => f p + sum f s'
  end.

Definition n_samples (s : list sample) : Q := inject_Z (Z.of_nat (length s)).
Definition mean_x (s : list sample) : Q := sum fst s / n_samples s.
Definition mean_y (s : list sample) : Q := sum snd s / n_samples s.

(** The centred second moments. *)
Definition sxx (s : list sample) : Q :=
  sum (fun p => (fst p - mean_x s) * (fst p - mean_x s)) s.
Definition sxy (s : list sample) : Q :=
  sum (fun p => (fst p - mean_x s) * (snd p - mean_y s)) s.

(** [coef_] and [intercept_]. *)
Record params : Type := mkParams { coef : Q; intercept : Q }.

(** The solution of the centred problem: [lstsq] returns the
    minimum-norm solution, [0], when the centred feature is zero. *)
Definition slope (s : list sample) : Q :=
  if Qeq_bool (sxx s) 0 then 0 else sxy s / sxx s.

(** [LinearRegression().fit(X, y)] *)
Definition fit (s : list sample) : result params :=
  match s with
  | [] => Err (ValueError "Found array with 0 sample(s) (shape=(0, 1)) while a minimum of 1 is required by LinearRegression.")%string
  | _ =>
      Ok (mkParams (slope s) (mean_y s - slope s * mean_x s))
  end.

(** [model.predict] at one year. *)
Definition predict (p : params) (x : Q) : Q := coef p * x + intercept p.

Definition residual (p : params) (q : sample) : Q := snd q - predict p (fst q).

(** The sum of squared residuals, which least squares minimises. *)
Definition sse (p : params) (s : list sample) : Q :=
  sum (fun q => residual p q * residual p q) s.

(** The abstract specification of an ordinary-least-squares fit. *)
Definition least_squares (s : list sample) (p : params) : Prop :=
  forall p', sse p s <= sse p' s.

(** What the forecaster needs of an estimator: it returns on every
    non-empty sample, and what it returns is a least-squares line. *)
Record Regressor : Type := {
  r_fit : list sample -> result params;
  r_fit_total : forall s, s <> [] -> is_ok (r_fit s) = true;
  r_fit_lsq : forall s p, r_fit s = Ok p -> least_squares s p
}.

(** ** The algebra of [sum] *)

#[export] Instance sum_Proper :
  Proper (pointwise_relation sample Qeq ==> eq ==> Qeq) sum.
Proof.
  intros f g Hfg s ? <-. induction s as [|p s IH]; simpl; [reflexivity|].
  rewrite IH, (Hfg p). reflexivity.
Qed.

Lemma sum_ext_in f g s :
  (forall p, In p s -> f p == g p) -> sum f s == sum g s.
Proof.
  induction s as [|p s IH]; intros H; simpl; [reflexivity|].
  rewrite (H p) by (left; reflexivity).
  rewrite IH by (intros; apply H; right; assumption). reflexivity.
Qed.

Lemma sum_const_in f s c :
  (forall p, In p s -> f p == c) -> sum f s == c * n_samples s.
Proof.
  unfold n_samples. induction s as [|p s IH]; intros H; simpl; [ring|].
  rewrite (H p) by (left; reflexivity). rewrite IH by (intros; apply H; right; assumption).
  rewrite Nat2Z.inj_succ, <- Z.add_1_l, inject_Z_plus. ring.
Qed.

Lemma sum_nonneg f s : (forall p, In p s -> 0 <= f p) -> 0 <= sum f s.
Proof.
  induction s as [|p s IH]; intros H; simpl; [lra|].
  assert (0 <= f p) by (apply H; simpl; auto).
  assert (0 <= sum f s) by (apply IH; intros; apply H; simpl; auto). lra.
Qed.

(** A sum of non-negative terms is zero only if every term is. *)
Lemma sum_nonneg_zero f s :
  (forall p, In p s -> 0 <= f p) -> sum f s == 0 -> forall p, In p s -> f p == 0.
Proof.
  induction s as [|p s IH]; intros Hpos Hz q Hq; simpl in *; [contradiction|].
  assert (0 <= f p) by (apply Hpos; auto).
  assert (0 <= sum f s) by (apply sum_nonneg; intros; apply Hpos; auto).
  destruct Hq as [<-|Hq]; [lra|].
  apply IH; [intros; apply Hpos; auto | lra | assumption].
Qed.

Lemma sq_nonneg (x : Q) : 0 <= x * x.
Proof. nra. Qed.

(** The raw sums every formula reduces to. *)
Definition Sx s := sum fst s.
Definition Sy s := sum snd s.
Definition Sxx s := sum (fun p => fst p * fst p) s.
Definition Sxy s := sum (fun p => fst p * snd p) s.

Lemma length_pos_n s : s <> [] -> ~ n_samples s == 0.
Proof.
  destruct s as [|p s]; [congruence|]. intros _. unfold n_samples, Qeq; simpl. lia.
Qed.

Lemma sum_centred2 s u v :
  sum (fun p => (fst p - u) * (snd p - v)) s ==
  Sxy s - v * Sx s - u * Sy s + n_samples s * u * v.
Proof.
  unfold Sxy, Sx, Sy, n_samples. induction s as [|p s IH]; simpl; [ring|].
  rewrite IH, Nat2Z.inj_succ, <- Z.add_1_l, inject_Z_plus. ring.
Qed.

Lemma sum_centred_sq s u :
  sum (fun p => (fst p - u) * (fst p - u)) s ==
  Sxx s - 2 * u * Sx s + n_samples s * u * u.
Proof.
  unfold Sxx, Sx, n_samples. induction s as [|p s IH]; simpl; [ring|].
  rewrite IH, Nat2Z.inj_succ, <- Z.add_1_l, inject_Z_plus. ring.
Qed.

Lemma sum_residual s a b :
  sum (fun q => snd q - (a * fst q + b)) s == Sy s - a * Sx s - b * n_samples s.
Proof.
  unfold Sy, Sx, n_samples. induction s as [|p s IH]; simpl; [ring|].
  rewrite IH, Nat2Z.inj_succ, <- Z.add_1_l, inject_Z_plus. ring.
Qed.

Lemma sum_x_residual s a b :
  sum (fun q => fst q * (snd q - (a * fst q + b))) s == Sxy s - a * Sxx s - b * Sx s.
Proof.
  unfold Sxy, Sxx, Sx. induction s as [|p s IH]; simpl; [ring|].
  rewrite IH. ring.
Qed.

Lemma sum_lin2 s u v (f g : sample -> Q) :
  sum (fun q => u * f q + v * g q) s == u * sum f s + v * sum g s.
Proof. induction s as [|p s IH]; simpl; [ring|]. rewrite IH. ring. Qed.

Lemma sum_sq_gap s (r d : sample -> Q) :
  sum (fun q => (r q - d q) * (r q - d q)) s ==
  sum (fun q => r q * r q) s - 2 * sum (fun q => r q * d q) s + sum (fun q => d q * d q) s.
Proof. induction s as [|p s IH]; simpl; [ring|]. rewrite IH. ring. Qed.

(** ** The centred moments in raw sums *)

Lemma sxx_raw s : s <> [] -> sxx s == Sxx s - Sx s * Sx s / n_samples s.
Proof.
  intros Hs. unfold sxx, mean_x. rewrite sum_centred_sq. fold (Sx s).
  field. now apply length_pos_n.
Qed.

Lemma sxy_raw s : s <> [] -> sxy s == Sxy s - Sx s * Sy s / n_samples s.
Proof.
  intros Hs. unfold sxy, mean_x, mean_y. rewrite sum_centred2. fold (Sx s) (Sy s).
  field. now apply length_pos_n.
Qed.

(** A zero spread of the years forces a zero covariance. *)
Lemma sxx_zero_sxy s : sxx s == 0 -> sxy s == 0.
Proof.
  intros Hz. unfold sxy.
  assert (forall p, In p s -> fst p - mean_x s == 0) as Hx.
  { intros p Hp. eapply sum_nonneg_zero in Hz; [|intros; apply sq_nonneg|exact Hp].
    apply Qmult_integral in Hz as [?|?]; assumption. }
  rewrite (sum_const_in _ _ 0); [ring|]. intros p Hp. rewrite (Hx p Hp). ring.
Qed.

(** Clearing the denominator of a non-zero difference. *)
Lemma nz_clear_den x y n : ~ n == 0 -> ~ x - y / n == 0 -> ~ x * n - y == 0.
Proof.
  intros Hn H Hz. apply H.
  transitivity ((x * n - y) / n); [field; exact Hn | rewrite Hz; field; exact Hn].
Qed.

Lemma slope_sxx s : slope s * sxx s == sxy s.
Proof.
  unfold slope. destruct (Qeq_bool (sxx s) 0) eqn:E.
  - apply Qeq_bool_iff in E. rewrite sxx_zero_sxy by exact E. ring.
  - field. intros Hz. apply Qeq_bool_iff in Hz. congruence.
Qed.

Lemma fit_Ok s p :
  fit s = Ok p <-> s <> [] /\ p = mkParams (slope s) (mean_y s - slope s * mean_x s).
Proof.
  destruct s as [|q s]; simpl; split; try discriminate.
  - intros [? _]; congruence.
  - intros [= <-]. split; [congruence|reflexivity].
  - intros [_ ->]. reflexivity.
Qed.

(** ** Normal equations of the fitted line *)

Lemma fit_normal_const s p : fit s = Ok p -> sum (residual p) s == 0.
Proof.
  intros [Hs ->]%fit_Ok. unfold residual, predict; simpl.
  rewrite sum_residual. unfold mean_y, mean_x. fold (Sx s) (Sy s).
  field. now apply length_pos_n.
Qed.

Lemma fit_normal_x s p : fit s = Ok p -> sum (fun q => fst q * residual p q) s == 0.
Proof.
  intros [Hs ->]%fit_Ok. unfold residual, predict; simpl.
  rewrite sum_x_residual. pose proof (slope_sxx s) as Hsl.
  rewrite (sxx_raw s Hs), (sxy_raw s Hs) in Hsl.
  unfold mean_y, mean_x. fold (Sx s) (Sy s).
  assert (~ n_samples s == 0) by (now apply length_pos_n).
  transitivity ((Sxy s - Sx s * Sy s / n_samples s) -
                slope s * (Sxx s - Sx s * Sx s / n_samples s)).
  - field. assumption.
  - rewrite Hsl. ring.
Qed.

(** The squared error of any line is that of the fit plus the squared
    distance between the two lines over the sample. *)
Lemma sse_gap s p p' :
  fit s = Ok p ->
  sse p' s == sse p s +
    sum (fun q => (predict p' (fst q) - predict p (fst q)) *
                  (predict p' (fst q) - predict p (fst q))) s.
Proof.
  intros H. unfold sse.
  rewrite (sum_ext_in (fun q => residual p' q * residual p' q)
     (fun q => (residual p q - (predict p' (fst q) - predict p (fst q))) *
               (residual p q - (predict p' (fst q) - predict p (fst q)))))
    by (intros; unfold residual; ring).
  rewrite sum_sq_gap.
  assert (sum (fun q => residual p q * (predict p' (fst q) - predict p (fst q))) s == 0)
    as ->; [|ring].
  rewrite (sum_ext_in _ (fun q => (coef p' - coef p) * (fst q * residual p q) +
                                  (intercept p' - intercept p) * residual p q))
    by (intros; unfold predict; ring).
  rewrite sum_lin2, (fit_normal_x s p H), (fit_normal_const s p H). ring.
Qed.
Lemma sum_sq_nonneg s (f : sample -> Q) : 0 <= sum (fun q => f q * f q) s.
Proof. apply sum_nonneg. intros. apply sq_nonneg. Qed.

Lemma fit_lsq s p : fit s = Ok p -> least_squares s p.
Proof.
  intros H p'. rewrite (sse_gap s p p' H).
  pose proof (sum_sq_nonneg s (fun q => predict p' (fst q) - predict p (fst q))) as Hn.
  cbv beta in Hn. lra.
Qed.

Lemma fit_total s : s <> [] -> is_ok (fit s) = true.
Proof. destruct s; [congruence|reflexivity]. Qed.

(** scikit-learn's estimator meets the interface. *)
Definition sklearn : Regressor :=
  {| r_fit := fit; r_fit_total := fit_total; r_fit_lsq := fit_lsq |}.

(** Data on an exact line have that line's raw sums. *)
Lemma line_sums s a b :
  (forall q, In q s -> snd q == a * fst q + b) ->
  Sy s == a * Sx s + b * n_samples s /\ Sxy s == a * Sxx s + b * Sx s.
Proof.
  intros Hl. split.
  - assert (sum (fun q => snd q - (a * fst q + b)) s == 0) as H.
    { rewrite (sum_const_in _ _ 0) by (intros q Hq; rewrite (Hl q Hq); ring). ring. }
    rewrite sum_residual in H.
    transitivity ((Sy s - a * Sx s - b * n_samples s) + (a * Sx s + b * n_samples s));
      [ring | rewrite H; ring].
  - assert (sum (fun q => fst q * (snd q - (a * fst q + b))) s == 0) as H.
    { rewrite (sum_const_in _ _ 0) by (intros q Hq; rewrite (Hl q Hq); ring). ring. }
    rewrite sum_x_residual in H.
    transitivity ((Sxy s - a * Sxx s - b * Sx s) + (a * Sxx s + b * Sx s));
      [ring | rewrite H; ring].
Qed.

(** ** Theorems *)

(** C: refinement of the abstract specification: what [fit] returns
    minimises the sum of squared residuals over all lines. *)
Theorem fit_least_squares s p : fit s = Ok p -> least_squares s p.
Proof.
  intros H p'. rewrite (sse_gap s p p' H).
  pose proof (sum_sq_nonneg s (fun q => predict p' (fst q) - predict p (fst q))) as Hn.
  cbv beta in Hn. lra.
Qed.

(** C: [fit] raises exactly on an empty sample, with scikit-learn's
    message. *)
Theorem fit_Err s e :
  fit s = Err e <->
  s = [] /\ e = ValueError "Found array with 0 sample(s) (shape=(0, 1)) while a minimum of 1 is required by LinearRegression."%string.
Proof.
  destruct s; simpl; split.
  - intros [= <-]. split; reflexivity.
  - intros [_ ->]. reflexivity.
  - discriminate.
  - intros [? _]; discriminate.
Qed.

(** C: samples on an exact line [y = a x + b] with at least two
    distinct years give back that line. *)
Theorem fit_exact_line s a b p :
  (forall q, In q s -> snd q == a * fst q + b) -> ~ sxx s == 0 ->
  fit s = Ok p -> coef p == a /\ intercept p == b.
Proof.
  intros Hl Hsxx H. apply fit_Ok in H as [Hs ->]. simpl.
  destruct (line_sums s a b Hl) as [Hy Hxy].
  assert (~ n_samples s == 0) by now apply length_pos_n.
  assert (slope s == a) as Ha.
  { unfold slope. destruct (Qeq_bool (sxx s) 0) eqn:E;
      [apply Qeq_bool_iff in E; contradiction|].
    rewrite (sxy_raw s Hs). rewrite (sxx_raw s Hs) in Hsxx |- *. rewrite Hy, Hxy.
    field. split; [assumption | now apply nz_clear_den]. }
  split; [exact Ha|]. rewrite Ha. unfold mean_y, mean_x. fold (Sx s) (Sy s).
  rewrite Hy. field. assumption.
Qed.

(** C: the coefficient is the textbook closed form
    [(n Sxy - Sx Sy) / (n Sxx - Sx^2)] whenever that is defined. *)
Theorem slope_closed_form s :
  s <> [] -> ~ n_samples s * Sxx s - Sx s * Sx s == 0 ->
  slope s == (n_samples s * Sxy s - Sx s * Sy s) / (n_samples s * Sxx s - Sx s * Sx s).
Proof.
  intros Hs Hd. assert (~ n_samples s == 0) by now apply length_pos_n.
  assert (~ sxx s == 0) as Hsxx.
  { rewrite (sxx_raw s Hs). intros Hz. apply Hd.
    transitivity (n_samples s * (Sxx s - Sx s * Sx s / n_samples s));
      [field; assumption | rewrite Hz; ring]. }
  unfold slope. destruct (Qeq_bool (sxx s) 0) eqn:E;
    [apply Qeq_bool_iff in E; contradiction|].
  rewrite (sxy_raw s Hs). rewrite (sxx_raw s Hs) in Hsxx |- *.
  field. repeat split; try assumption; now apply nz_clear_den.
Qed.

(** C: when every sample has the same year the fit is not an error:
    the coefficient is [0] and every prediction is the mean rate. *)
Theorem fit_single_year s c :
  s <> [] -> (forall q, In q s -> fst q == c) ->
  exists p, fit s = Ok p /\ coef p == 0 /\ forall x, predict p x == mean_y s.
Proof.
  intros Hs Hc. assert (~ n_samples s == 0) by now apply length_pos_n.
  assert (Sx s == c * n_samples s) as Hx.
  { apply sum_const_in. exact Hc. }
  assert (sxx s == 0) as Hz.
  { unfold sxx. rewrite (sum_const_in _ _ 0); [ring|].
    intros q Hq. unfold mean_x. fold (Sx s). rewrite Hx, (Hc q Hq). field. assumption. }
  exists (mkParams (slope s) (mean_y s - slope s * mean_x s)). split.
  - apply fit_Ok. split; [exact Hs|reflexivity].
  - unfold slope. apply Qeq_bool_iff in Hz. rewrite Hz. split; [reflexivity|].
    intros x. unfold predict; simpl. ring.
Qed.
(** ** Concrete samples and witnesses *)

(** The synthetic data of section 8 of the specification. *)
Definition spec_samples : list sample := [(2018, 30); (2019, 31); (2020, 32)].

(** One year only, two rates. *)
Definition one_year_samples : list sample := [(2019, 30); (2019, 32)].

Lemma fit_least_squares_witness :
  exists p, fit spec_samples = Ok p /\ least_squares spec_samples p.
Proof.
  eexists. split; [vm_compute; reflexivity|].
  apply fit_least_squares. vm_compute. reflexivity.
Defined.

Lemma fit_exact_line_witness :
  exists p, fit spec_samples = Ok p /\ coef p == 1 /\ intercept p == -1988.
Proof.
  eexists. split; [vm_compute; reflexivity|].
  apply (fit_exact_line spec_samples 1 (-1988)).
  - intros q Hq. simpl in Hq.
    destruct Hq as [<-|[<-|[<-|[]]]]; vm_compute; reflexivity.
  - vm_compute. discriminate.
  - vm_compute. reflexivity.
Defined.

Lemma slope_closed_form_witness :
  slope spec_samples ==
  (n_samples spec_samples * Sxy spec_samples - Sx spec_samples * Sy spec_samples) /
  (n_samples spec_samples * Sxx spec_samples - Sx spec_samples * Sx spec_samples).
Proof.
  apply slope_closed_form.
  - discriminate.
  - vm_compute. discriminate.
Defined.

Lemma fit_single_year_witness :
  exists p, fit one_year_samples = Ok p /\ coef p == 0 /\
    forall x, predict p x == mean_y one_year_samples.
Proof.
  apply (fit_single_year one_year_samples 2019).
  - discriminate.
  - intros q Hq. simpl in Hq. destruct Hq as [<-|[<-|[]]]; reflexivity.
Defined.
End OLS.
