(* ===== verification/Forecast.v ===== *)
(** * The forecast of src/main.py (l. 53-66)

    [Module Forecaster]: [samples_of] is what [check_X_y] makes of
    [X = df[["Year"]]] and [y = df["ObesityRate"]] (l. 53-54);
    [future_years] is [range(2026, 2031)] (l. 60); [forecast] fits an
    estimator and pairs each future year with its prediction, as the
    [zip] of l. 65 does; [run] is the script from the cleaning to the
    forecast.  The theorems about [forecast] are proved against the
    [Regressor] interface of [Regression], so they hold for any
    least-squares estimator, and are then used with [sklearn]. *)

From Stdlib Require Import String ZArith QArith Lqa.
From stdpp Require Import base list decidable strings.
From S2P Require Import Prelude Frame Clean Regression.

Module Forecaster.
Import Cell Table Cleaner OLS.
Local Open Scope pipeline_scope.

(** [check_array]'s conversion of one value of input [what] ("X" or
    "y") to float64. *)
Definition to_float64 (what : string) (c : cell) : result Q :=
  match c with
  | NaN => Err (ValueError ("Input " ++ what ++ " contains NaN."))
  | Int z => Ok (inject_Z z)
  | Float q => Ok q
  | Str s =>
      match parse_float s with
      | Some q => Ok q
      | None => Err (ValueError ("could not convert string to float: '" ++ s ++ "'"))
      end
  end.

(** l. 53-57: the columns are looked up in the order of the script,
    then [X] is converted before [y]. *)
Definition samples_of (df : frame) : result (list sample) :=
  iy <- get_loc df "Year" ;;
  ir <- get_loc df "ObesityRate" ;;
  xs <- mapR (to_float64 "X") (column_at df iy) ;;
  ys <- mapR (to_float64 "y") (column_at df ir) ;;
  ret (zip xs ys).

(** Python's [range(lo, hi)]. *)
Definition py_range (lo hi : Z) : list Z :=
  (fun k => lo + Z.of_nat k)%Z <$> seq 0 (Z.to_nat (hi - lo)).

(** l. 60: [range(2026, 2031)]. *)
Definition future_years : list Z := py_range 2026 2031.

(** l. 56-61 and the pairs printed at l. 65-66. *)
Definition forecast (R : Regressor) (df : frame) : result (list (Z * Q)) :=
  s <- samples_of df ;;
  p <- r_fit R s ;;
  ret ((fun y => (y, predict p (inject_Z y))) <$> future_years).

(** l. 21-61: clean, then forecast with scikit-learn. *)
Definition run (df : frame) : result (list (Z * Q)) :=
  df' <- clean df ;;
  forecast sklearn df'.

(** ** Lemmas *)

Lemma to_float64_numeric what c :
  is_int c = true \/ is_float c = true -> is_ok (to_float64 what c) = true.
Proof. destruct c; simpl; intros [H|H]; done. Qed.

(** A cleaned table converts to one sample per row. *)
Lemma samples_of_cleaned df :
  cleaned df -> exists s, samples_of df = Ok s /\ length s = length (rows df).
Proof.
  intros (Hnd & _ & iy & ir & Hiy & Hir & HP). unfold samples_of.
  rewrite (get_loc_unique _ _ _ Hnd Hiy), (get_loc_unique _ _ _ Hnd Hir); simpl.
  destruct (mapR_Ok_exists (to_float64 "X") (column_at df iy)) as [xs Hxs].
  { apply Forall_map. eapply Forall_impl; [exact HP|].
    intros r (_ & _ & _ & Hi & _). apply to_float64_numeric. by left. }
  destruct (mapR_Ok_exists (to_float64 "y") (column_at df ir)) as [ys Hys].
  { apply Forall_map. eapply Forall_impl; [exact HP|].
    intros r (_ & _ & _ & _ & Hf). apply to_float64_numeric. by right. }
  rewrite Hxs; simpl; rewrite Hys; simpl. eexists; split; [reflexivity|].
  apply mapR_Ok_length in Hxs, Hys. rewrite length_column_at in Hxs, Hys.
  rewrite length_zip_with. lia.
Qed.

Lemma forecast_Ok R df out :
  forecast R df = Ok out <->
  exists s p, samples_of df = Ok s /\ r_fit R s = Ok p /\
    out = (fun y => (y, predict p (inject_Z y))) <$> future_years.
Proof.
  unfold forecast. split.
  - intros H; inv_ok. eauto.
  - intros (s & p & Hs & Hp & ->). by rewrite Hs; simpl; rewrite Hp.
Qed.

(** The residuals of a least-squares line vanish on data that lie on
    a line. *)
Lemma least_squares_interpolates s p a b :
  least_squares s p -> (forall q, In q s -> (snd q == a * fst q + b)%Q) ->
  forall q, In q s -> (residual p q == 0)%Q.
Proof.
  intros Hls Hl.
  assert (sse (mkParams a b) s == 0)%Q as H0.
  { unfold sse. rewrite (sum_const_in _ _ 0); [ring|].
    intros q Hq. unfold residual, predict; simpl. rewrite (Hl q Hq). ring. }
  specialize (Hls (mkParams a b)). rewrite H0 in Hls.
  pose proof (sum_sq_nonneg s (residual p)) as Hn. cbv beta in Hn.
  intros q Hq.
  apply (sum_nonneg_zero (fun q => residual p q * residual p q)%Q s) in Hq;
    [| intros; apply sq_nonneg | unfold sse in Hls; lra].
  apply Qmult_integral in Hq as [?|?]; assumption.
Qed.

(** Two lines that meet at two distinct years are the same line. *)
Lemma two_points_line a b c d x1 x2 :
  ~ (x1 == x2)%Q -> (a * x1 + b == c * x1 + d)%Q -> (a * x2 + b == c * x2 + d)%Q ->
  (c == a)%Q /\ (d == b)%Q.
Proof.
  intros Hne H1 H2.
  assert ((a - c) * (x1 - x2) == 0)%Q as H.
  { transitivity ((a * x1 + b) - (c * x1 + d) - ((a * x2 + b) - (c * x2 + d)))%Q;
      [ring | rewrite H1, H2; ring]. }
  apply Qmult_integral in H as [H|H]; [|exfalso; apply Hne; lra].
  assert (c == a)%Q as Hc by lra. split; [exact Hc|].
  transitivity ((c * x1 + d) - c * x1)%Q; [ring|]. rewrite <- H1, Hc. ring.
Qed.

(** A cleaned table with a row gives a non-empty sample, which any
    estimator of the interface fits. *)
Lemma forecast_total R df :
  cleaned df -> rows df <> [] ->
  exists s p, samples_of df = Ok s /\ r_fit R s = Ok p.
Proof.
  intros Hc Hne. destruct (samples_of_cleaned df Hc) as (s & Hs & Hlen).
  assert (s <> []) as Hs0 by (intros ->; destruct (rows df); [congruence|discriminate]).
  pose proof (r_fit_total R s Hs0) as Hok.
  destruct (r_fit R s) as [p|] eqn:Hp; [|discriminate]. eauto.
Qed.

(** With both labels present and no row, the sample is empty ... *)
Lemma samples_of_no_rows df iy ir :
  get_loc df "Year" = Ok iy -> get_loc df "ObesityRate" = Ok ir -> rows df = [] ->
  samples_of df = Ok [].
Proof.
  intros Hy Hr H0. unfold samples_of, column_at.
  rewrite Hy; cbn [rbind]. rewrite Hr; cbn [rbind]. rewrite H0. reflexivity.
Qed.

(** ... and scikit-learn's fit raises on it. *)
Lemma forecast_no_rows df iy ir :
  get_loc df "Year" = Ok iy -> get_loc df "ObesityRate" = Ok ir -> rows df = [] ->
  forecast sklearn df =
  Err (ValueError "Found array with 0 sample(s) (shape=(0, 1)) while a minimum of 1 is required by LinearRegression."%string).
Proof.
  intros Hy Hr H0. unfold forecast. rewrite (samples_of_no_rows df iy ir Hy Hr H0). reflexivity.
Qed.

Lemma run_clean df df' : clean df = Ok df' -> run df = forecast sklearn df'.
Proof. intros H. unfold run. by rewrite H. Qed.

(** ** Theorems *)

(** C: on a cleaned table with a row, any estimator of the interface
    returns a forecast, for the years 2026, 2027, 2028, 2029 and 2030
    in this order. *)
Theorem forecast_returns R df :
  cleaned df -> rows df <> [] ->
  exists out, forecast R df = Ok out /\ fst <$> out = [2026; 2027; 2028; 2029; 2030]%Z.
Proof.
  intros Hc Hne. destruct (forecast_total R df Hc Hne) as (s & p & Hs & Hp).
  eexists. split; [apply forecast_Ok; eauto|].
  rewrite <- list_fmap_compose. reflexivity.
Qed.

(** C: if the samples lie on a line [y = a x + b] and have two
    distinct years, every least-squares estimator forecasts on that
    line. *)
Theorem forecast_exact_line R df s a b q1 q2 out :
  samples_of df = Ok s -> (forall q, In q s -> (snd q == a * fst q + b)%Q) ->
  In q1 s -> In q2 s -> ~ (fst q1 == fst q2)%Q ->
  forecast R df = Ok out ->
  Forall (fun yv => (snd yv == a * inject_Z (fst yv) + b)%Q) out.
Proof.
  intros Hs Hl H1 H2 Hne (s' & p & Hs' & Hp & ->)%forecast_Ok.
  rewrite Hs in Hs'; injection Hs' as <-.
  pose proof (least_squares_interpolates s p a b (r_fit_lsq R s p Hp) Hl) as Hr.
  destruct (two_points_line a b (coef p) (intercept p) (fst q1) (fst q2)) as [Ha Hb];
    [exact Hne | | |].
  - pose proof (Hr q1 H1) as R1. unfold residual, predict in R1. rewrite (Hl q1 H1) in R1. lra.
  - pose proof (Hr q2 H2) as R2. unfold residual, predict in R2. rewrite (Hl q2 H2) in R2. lra.
  - apply Forall_fmap, Forall_forall. intros y _. simpl. unfold predict. rewrite Ha, Hb.
    reflexivity.
Qed.


(** C: on a table read by [read_csv] whose relabelled header is
    unique, the script gets to its forecast exactly when the cleaning
    succeeds and keeps a row; a single distinct year is enough. *)
Theorem run_succeeds df :
  frame_wf df -> NoDup (map (rename_label main_mapping) (columns df)) ->
  is_ok (run df) = true <-> exists df', clean df = Ok df' /\ rows df' <> [].
Proof.
  intros Hwf Hnd. split.
  - unfold run. destruct (clean df) as [df'|e] eqn:Hc; cbn [rbind]; [|discriminate].
    intros Hok. exists df'. split; [done|]. intros H0.
    destruct (clean_get_loc _ _ Hc) as (iy & ir & Hy & Hr).
    by rewrite (forecast_no_rows _ _ _ Hy Hr H0) in Hok.
  - intros (df' & Hc & Hne). rewrite (run_clean _ _ Hc).
    destruct (forecast_total sklearn df' (clean_cleaned _ _ Hwf Hnd Hc) Hne)
      as (s & p & Hs & Hp).
    unfold forecast. rewrite Hs; cbn [rbind]. by rewrite Hp.
Qed.

(** ** Example tables *)

(** A table where every observation has the same year. *)
Definition one_year_frame : frame :=
  mkFrame ["DIM_TIME"; "RATE_PER_100_N"] [[Int 2019; Float 30]; [Int 2019; Float 32]].

(** A table in which every row misses a value. *)
Definition all_missing_frame : frame :=
  mkFrame ["DIM_TIME"; "RATE_PER_100_N"] [[Int 2019; NaN]; [NaN; Float 32]].

(** ** Witnesses *)

(** An already clean table on the line [rate = year - 1988]. *)
Definition linear_clean : frame :=
  mkFrame ["Year"; "ObesityRate"] [[Int 2018; Float 30]; [Int 2019; Float 31]; [Int 2020; Float 32]].

Lemma linear_clean_cleaned : cleaned linear_clean.
Proof.
  split; [decide_by_compute (NoDup (columns linear_clean))|].
  split; [decide_by_compute (NoDup (rows linear_clean))|].
  exists 0%nat, 1%nat. split; [reflexivity|]. split; [reflexivity|].
  decide_by_compute (Forall (clean_row 2 0 1) (rows linear_clean)).
Qed.

Lemma forecast_returns_witness :
  exists out, forecast sklearn linear_clean = Ok out /\
    fst <$> out = [2026; 2027; 2028; 2029; 2030]%Z.
Proof.
  apply forecast_returns; [exact linear_clean_cleaned | discriminate].
Defined.


Lemma run_succeeds_witness :
  frame_wf one_year_frame /\
  NoDup (map (rename_label main_mapping) (columns one_year_frame)) /\
  (is_ok (run one_year_frame) = true <->
   exists df', clean one_year_frame = Ok df' /\ rows df' <> []).
Proof.
  split; [decide_by_compute (frame_wf one_year_frame)|].
  split; [decide_by_compute (NoDup (map (rename_label main_mapping) (columns one_year_frame)))|].
  apply run_succeeds.
  - decide_by_compute (frame_wf one_year_frame).
  - decide_by_compute (NoDup (map (rename_label main_mapping) (columns one_year_frame))).
Defined.

Lemma forecast_exact_line_witness :
  exists out, forecast sklearn linear_clean = Ok out /\
  Forall (fun yv => (snd yv == 1 * inject_Z (fst yv) + (-1988))%Q) out.
Proof.
  eexists. split; [vm_compute; reflexivity|].
  apply (forecast_exact_line sklearn linear_clean
           [(inject_Z 2018, 30%Q); (inject_Z 2019, 31%Q); (inject_Z 2020, 32%Q)]
           1 (-1988) (inject_Z 2018, 30%Q) (inject_Z 2019, 31%Q)).
  - vm_compute. reflexivity.
  - intros q Hq. simpl in Hq.
    destruct Hq as [<-|[<-|[<-|[]]]]; vm_compute; reflexivity.
  - left. reflexivity.
  - right. left. reflexivity.
  - vm_compute. discriminate.
  - vm_compute. reflexivity.
Defined.

End Forecaster.
