(* ===== verification/Plot.v ===== *)
(** * The two charts of src/main.py (l. 41-50 and l. 69-78)

    [Module Plot]: a figure is its title, axis labels and lines; a
    line is its label and its points.  [aggregate] is what
    [sns.lineplot] draws from repeated x values with its defaults
    [estimator="mean"] and [sort=True]: one point per distinct x, in
    increasing order, at the mean of the y values of that x.
    [trend_figure] is the chart saved as [obesity_trend.png] (l. 43-49)
    and [forecast_figure] the chart saved as [forecast.png] (l. 69-76).
    The confidence band seaborn draws around a mean is bootstrapped
    with a random seed and is not modelled, nor are colours, markers,
    sizes and the pixels of the image. *)

From Stdlib Require Import String Ascii ZArith QArith Lqa Sorted.
From stdpp Require Import base list decidable strings.
From S2P Require Import Prelude Frame Regression.

Module Plot.
Import OLS.

Record line : Type := mkLine {
  l_label : option string;
  l_points : list (Q * Q)
}.

Record figure : Type := mkFigure {
  fig_title : string;
  fig_xlabel : string;
  fig_ylabel : string;
  fig_lines : list line
}.

(** Insert [x] into a list of x values kept increasing and free of
    repetitions. *)
Fixpoint insert_x (x : Q) (xs : list Q) : list Q :=
  match xs with
  | [] => [x]
  | y :: r => if Qeq_bool x y then xs else if Qle_bool x y then x :: xs else y :: insert_x x r
  end.

(** The distinct x values, in increasing order ([sort=True]). *)
Definition distinct_xs (s : list sample) : list Q := fold_right insert_x [] (map fst s).

(** [estimator="mean"]: the mean of the y values at [x]. *)
Definition mean_at (s : list sample) (x : Q) : Q :=
  mean_y (filter (fun p => Qeq_bool (fst p) x) s).

(** The points [sns.lineplot] draws. *)
Definition aggregate (s : list sample) : list (Q * Q) :=
  map (fun x => (x, mean_at s x)) (distinct_xs s).

(** The en dash of the titles, in UTF-8. *)
Definition en_dash : string :=
  String (ascii_of_nat 226) (String (ascii_of_nat 128) (String (ascii_of_nat 147) EmptyString)).

(** l. 43-49: [sns.lineplot(data=df, x="Year", y="ObesityRate",
    marker="o")] with its title and labels, saved as
    [obesity_trend.png]. *)
Definition trend_figure (s : list sample) : figure :=
  mkFigure "Obesity Prevalence Over Time in Rwanda (Age 18+)" "Year" "Obesity Rate (%)"
    [mkLine None (aggregate s)].

(** l. 69-76: the actual series and the forecast, saved as
    [forecast.png]. *)
Definition forecast_figure (s : list sample) (preds : list (Z * Q)) : figure :=
  mkFigure ("Forecasted Obesity Rate in Rwanda (2026" ++ en_dash ++ "2030)") "Year" "Obesity Rate (%)"
    [mkLine (Some "Actual") (aggregate s);
     mkLine (Some "Forecast") (aggregate (map (fun '(y, v) => (inject_Z y, v)) preds))].

(** ** The x values of a chart *)

Lemma insert_x_In x xs y : In y (insert_x x xs) -> y = x \/ In y xs.
Proof.
  induction xs as [|z xs IH]; cbn [insert_x]; [intros [<-|[]]; auto|].
  destruct (Qeq_bool x z); [intros; by right|].
  destruct (Qle_bool x z); [intros [<-|H]; auto|].
  intros [<-|H]; [right; left; done|]. destruct (IH H); [auto|right; right; done].
Qed.

Lemma insert_x_keeps x xs y : In y xs -> In y (insert_x x xs).
Proof.
  induction xs as [|z xs IH]; cbn [insert_x]; [done|].
  destruct (Qeq_bool x z); [done|]. destruct (Qle_bool x z); [intros; by right|].
  intros [<-|H]; [by left|right; auto].
Qed.

Lemma insert_x_has x xs : exists y, In y (insert_x x xs) /\ (y == x)%Q.
Proof.
  induction xs as [|z xs IH]; cbn [insert_x]; [exists x; split; [left|]; done|].
  destruct (Qeq_bool x z) eqn:E.
  - exists z. split; [by left|]. apply Qeq_bool_iff in E. by symmetry.
  - destruct (Qle_bool x z); [exists x; split; [left|]; done|].
    destruct IH as (y & Hy & Hq). exists y. split; [by right|done].
Qed.

Lemma insert_x_sorted x xs : Sorted Qlt xs -> Sorted Qlt (insert_x x xs).
Proof.
  induction 1 as [|z xs Hs IH Hhd]; cbn [insert_x]; [repeat constructor|].
  destruct (Qeq_bool x z) eqn:E; [by constructor|].
  destruct (Qle_bool x z) eqn:L.
  - apply Qle_bool_iff in L. assert (~ (x == z)%Q) as Hne by (intros H%Qeq_bool_iff; congruence).
    constructor; [by constructor|]. constructor. apply Qle_lteq in L as [L|L]; [done|contradiction].
  - assert (z < x)%Q as Hlt by (apply Qnot_le_lt; intros H%Qle_bool_iff; congruence).
    constructor; [done|]. clear IH. inversion Hhd as [|w ws Hw]; subst; cbn [insert_x].
    + by constructor.
    + destruct (Qeq_bool x w); [by constructor|]. destruct (Qle_bool x w); by constructor.
Qed.

Lemma distinct_xs_sorted s : Sorted Qlt (distinct_xs s).
Proof. unfold distinct_xs. induction (map fst s); cbn [fold_right]; [constructor|]. by apply insert_x_sorted. Qed.

Lemma distinct_xs_In s x : In x (distinct_xs s) -> exists p, In p s /\ fst p = x.
Proof.
  unfold distinct_xs. intros H.
  assert (In x (map fst s)) as (p & <- & Hp)%in_map_iff; [|eauto].
  induction (map fst s) as [|z l IH]; cbn [fold_right] in H; [done|].
  apply insert_x_In in H as [<-|H]; [by left|right; auto].
Qed.

Lemma distinct_xs_has s p : In p s -> exists x, In x (distinct_xs s) /\ (x == fst p)%Q.
Proof.
  unfold distinct_xs. intros Hp. apply (in_map fst) in Hp.
  induction (map fst s) as [|z l IH]; cbn [fold_right]; [done|].
  destruct Hp as [<-|Hp]; [apply insert_x_has|].
  destruct (IH Hp) as (x & Hx & Hq). exists x. split; [by apply insert_x_keeps|done].
Qed.

Lemma Sorted_map {A B} (R : B -> B -> Prop) (f : A -> B) l :
  Sorted (fun a b => R (f a) (f b)) l -> Sorted R (map f l).
Proof.
  induction 1 as [|a l Hs IH Hhd]; cbn [map]; constructor; [done|].
  inversion Hhd; subst; cbn [map]; by constructor.
Qed.

(** ** Theorems *)


End Plot.
