(* ===== verification/Script.v ===== *)
(** * The script src/main.py as a run over files and the console

    [Module Script]: the world the script acts on is its files (their
    contents: CSV text or a saved figure) and what it has printed.  A
    configuration is the point the script has reached, the world, the
    frame [df] and the predictions.  [sstep] has one rule per block of
    the script and per way the block raises:

    - l. 13 [pd.read_csv("RELAY_WHS.csv")]: the file is missing, not
      text, or does not parse;
    - l. 16-18 the banner, [df.info()] (which prints a summary of [df]
      and returns [None], so that [print] prints ["None"]) and
      [print(df.head())];
    - l. 21-34 the cleaning; l. 37-38 the cleaned CSV file and its
      message; l. 43-50 the trend chart; l. 53-61 fit and predict;
      l. 64-66 the forecast lines; l. 69-78 the forecast chart.

    [next] is the same step as a function, [script] the whole run.  The
    theorems: every run ends within eight steps, the input file is never
    written and the console only grows, and what a run leaves behind
    when the forecast is possible and when the cleaning keeps no row. *)

From Stdlib Require Import String Ascii ZArith QArith.
From stdpp Require Import base list decidable strings relations.
From S2P Require Import Prelude Frame Clean Text Csv Format Regression Forecast Plot.

Module Script.
Import Cell Table Cleaner Text Csv Format OLS Forecaster Plot.
Local Open Scope string_scope.
Local Open Scope pipeline_scope.
Local Open Scope list_scope.

(** ** The world *)

Inductive content : Type :=
| CsvFile (text : list ascii)
| Image (fig : figure).

(** One [print] call: a line of text, the summary [df.info()] prints,
    or the [repr] of a frame (neither of the last two is rendered). *)
Inductive output : Type :=
| Line (text : list ascii)
| Info (df : frame)
| Repr (df : frame).

Record world : Type := mkWorld {
  files : list (string * content);
  stdout : list output
}.

Fixpoint lookup_file (fs : list (string * content)) (path : string) : option content :=
  match fs with
  | [] => None
  | (p, c) :: r => if String.eqb p path then Some c else lookup_file r path
  end.

Definition read_file (w : world) (path : string) : option content := lookup_file (files w) path.

(** Opening [path] for writing creates or replaces the file. *)
Definition write_file (path : string) (c : content) (w : world) : world :=
  mkWorld ((path, c) :: files w) (stdout w).

Definition print (o : output) (w : world) : world := mkWorld (files w) (stdout w ++ [o]).

Definition print_lines (ls : list (list ascii)) (w : world) : world :=
  fold_left (fun w l => print (Line l) w) ls w.

Definition input_path : string := "RELAY_WHS.csv".
Definition cleaned_path : string := "cleaned_data.csv".
Definition trend_path : string := "obesity_trend.png".
Definition forecast_path : string := "forecast.png".

Definition text (s : string) : list ascii := list_ascii_of_string s.
Definition bytes (ns : list nat) : list ascii := map ascii_of_nat ns.

(** l. 16. *)
Definition info_banner : list ascii := nl :: text "--- Dataset Info ---".
(** l. 38, with the UTF-8 bytes of the check mark. *)
Definition saved_message : list ascii :=
  nl :: bytes [226; 156; 133] ++ text " Cleaned data saved to 'cleaned_data.csv'".
(** l. 64, with the chart emoji and the en dash. *)
Definition forecast_banner : list ascii :=
  nl :: bytes [240; 159; 147; 136] ++ text " Forecasted Obesity Rates (2026" ++
  text en_dash ++ text "2030):".

Definition missing_message : string := "[Errno 2] No such file or directory: 'RELAY_WHS.csv'".

(** [df.head()]. *)
Definition head (df : frame) : frame := mkFrame (columns df) (take 5 (rows df)).

(** ** The run *)

Inductive point : Type :=
| AtLoad | AtInfo | AtClean | AtSave | AtTrend | AtFit | AtPrint | AtPlot
| Finished
| Raised (e : exn).

Record config : Type := mkConfig {
  pc : point;
  world_of : world;
  df_of : frame;
  preds_of : list (Z * Q)
}.

Definition init (w : world) : config := mkConfig AtLoad w (mkFrame [] []) [].

Inductive sstep : config -> config -> Prop :=
| step_load w df0 p t df :
    read_file w input_path = Some (CsvFile t) -> read_csv t = Ok df ->
    sstep (mkConfig AtLoad w df0 p) (mkConfig AtInfo w df p)
| step_load_err w df0 p t e :
    read_file w input_path = Some (CsvFile t) -> read_csv t = Err e ->
    sstep (mkConfig AtLoad w df0 p) (mkConfig (Raised e) w df0 p)
| step_load_missing w df0 p :
    read_file w input_path = None ->
    sstep (mkConfig AtLoad w df0 p) (mkConfig (Raised (FileNotFoundError missing_message)) w df0 p)
| step_load_binary w df0 p fig :
    read_file w input_path = Some (Image fig) ->
    sstep (mkConfig AtLoad w df0 p) (mkConfig (Raised UnicodeDecodeError) w df0 p)
| step_info w df p :
    sstep (mkConfig AtInfo w df p)
      (mkConfig AtClean (print (Repr (head df)) (print (Line (text "None"))
                          (print (Info df) (print (Line info_banner) w)))) df p)
| step_clean w df p df' :
    clean df = Ok df' -> sstep (mkConfig AtClean w df p) (mkConfig AtSave w df' p)
| step_clean_err w df p e :
    clean df = Err e -> sstep (mkConfig AtClean w df p) (mkConfig (Raised e) w df p)
| step_save w df p :
    sstep (mkConfig AtSave w df p)
      (mkConfig AtTrend (print (Line saved_message) (write_file cleaned_path (CsvFile (to_csv df)) w)) df p)
| step_trend w df p s :
    samples_of df = Ok s ->
    sstep (mkConfig AtTrend w df p) (mkConfig AtFit (write_file trend_path (Image (trend_figure s)) w) df p)
| step_trend_err w df p e :
    samples_of df = Err e -> sstep (mkConfig AtTrend w df p) (mkConfig (Raised e) w df p)
| step_fit w df p preds :
    forecast sklearn df = Ok preds -> sstep (mkConfig AtFit w df p) (mkConfig AtPrint w df preds)
| step_fit_err w df p e :
    forecast sklearn df = Err e -> sstep (mkConfig AtFit w df p) (mkConfig (Raised e) w df p)
| step_print w df p :
    sstep (mkConfig AtPrint w df p)
      (mkConfig AtPlot (print_lines (forecast_banner :: forecast_output p) w) df p)
| step_plot w df p s :
    samples_of df = Ok s ->
    sstep (mkConfig AtPlot w df p)
      (mkConfig Finished (write_file forecast_path (Image (forecast_figure s p)) w) df p)
| step_plot_err w df p e :
    samples_of df = Err e -> sstep (mkConfig AtPlot w df p) (mkConfig (Raised e) w df p).

(** The same step as a function; [None] once the script has ended. *)
Definition next (c : config) : option config :=
  let '(mkConfig at_ w df p) := c in
  match at_ with
  | AtLoad =>
      Some (match read_file w input_path with
            | Some (CsvFile t) =>
                match read_csv t with
                | Ok df' => mkConfig AtInfo w df' p
                | Err e => mkConfig (Raised e) w df p
                end
            | Some (Image _) => mkConfig (Raised UnicodeDecodeError) w df p
            | None => mkConfig (Raised (FileNotFoundError missing_message)) w df p
            end)
  | AtInfo =>
      Some (mkConfig AtClean (print (Repr (head df)) (print (Line (text "None"))
                               (print (Info df) (print (Line info_banner) w)))) df p)
  | AtClean =>
      Some (match clean df with
            | Ok df' => mkConfig AtSave w df' p
            | Err e => mkConfig (Raised e) w df p
            end)
  | AtSave =>
      Some (mkConfig AtTrend (print (Line saved_message)
                               (write_file cleaned_path (CsvFile (to_csv df)) w)) df p)
  | AtTrend =>
      Some (match samples_of df with
            | Ok s => mkConfig AtFit (write_file trend_path (Image (trend_figure s)) w) df p
            | Err e => mkConfig (Raised e) w df p
            end)
  | AtFit =>
      Some (match forecast sklearn df with
            | Ok preds => mkConfig AtPrint w df preds
            | Err e => mkConfig (Raised e) w df p
            end)
  | AtPrint => Some (mkConfig AtPlot (print_lines (forecast_banner :: forecast_output p) w) df p)
  | AtPlot =>
      Some (match samples_of df with
            | Ok s => mkConfig Finished (write_file forecast_path (Image (forecast_figure s p)) w) df p
            | Err e => mkConfig (Raised e) w df p
            end)
  | Finished | Raised _ => None
  end.

Fixpoint run_from (fuel : nat) (c : config) : config :=
  match fuel with
  | O => c
  | S f => match next c with Some c' => run_from f c' | None => c end
  end.

(** The whole script on a world: eight blocks, so eight steps. *)
Definition script (w : world) : config := run_from 8 (init w).

Definition final (c : config) : Prop :=
  match pc c with Finished | Raised _ => True | _ => False end.

(** How many blocks are left. *)
Definition rank (at_ : point) : nat :=
  match at_ with
  | AtLoad => 8 | AtInfo => 7 | AtClean => 6 | AtSave => 5 | AtTrend => 4
  | AtFit => 3 | AtPrint => 2 | AtPlot => 1 | Finished | Raised _ => 0
  end.

(** ** The step relation and the interpreter *)

Ltac rewrite_hyps :=
  repeat match goal with H : ?x = _ |- context [?x] => rewrite H end.

(** [next] computes exactly the steps of [sstep]. *)
Lemma sstep_next c c' : sstep c c' <-> next c = Some c'.
Proof.
  split.
  - destruct 1; cbn [next]; rewrite_hyps; reflexivity.
  - destruct c as [[] w df p]; cbn [next]; try discriminate; intros [= <-].
    + destruct (read_file w input_path) as [[t|fig]|] eqn:E; [|by econstructor|by econstructor].
      destruct (read_csv t) eqn:E2; by econstructor.
    + constructor.
    + destruct (clean df) eqn:E; by constructor.
    + constructor.
    + destruct (samples_of df) eqn:E; by econstructor.
    + destruct (forecast sklearn df) eqn:E; by constructor.
    + constructor.
    + destruct (samples_of df) eqn:E; by econstructor.
Qed.

Lemma next_None c : next c = None <-> final c.
Proof. destruct c as [[] ? ? ?]; cbn; split; done. Qed.

Lemma sstep_deterministic c c1 c2 : sstep c c1 -> sstep c c2 -> c1 = c2.
Proof. rewrite !sstep_next. congruence. Qed.

Lemma sstep_rank c c' : sstep c c' -> rank (pc c') < rank (pc c).
Proof. destruct 1; cbn; lia. Qed.

Lemma final_rank c : rank (pc c) = 0 -> final c.
Proof. destruct c as [[] ? ? ?]; cbn; done. Qed.

Lemma final_no_step c c' : final c -> ~ sstep c c'.
Proof. intros Hf Hs%sstep_next. apply next_None in Hf. congruence. Qed.

Lemma run_from_spec n c :
  rank (pc c) <= n -> final (run_from n c) /\ rtc sstep c (run_from n c).
Proof.
  revert c. induction n as [|n IH]; intros c Hr; cbn [run_from].
  - split; [apply final_rank; lia | apply rtc_refl].
  - destruct (next c) as [c'|] eqn:E.
    + apply sstep_next in E. pose proof (sstep_rank _ _ E).
      destruct (IH c') as [Hf Hs]; [lia|]. split; [done|]. by eapply rtc_l.
    + split; [by apply next_None | apply rtc_refl].
Qed.

Lemma rtc_final_unique c c1 c2 :
  rtc sstep c c1 -> final c1 -> rtc sstep c c2 -> final c2 -> c1 = c2.
Proof.
  intros H1. revert c2. induction H1 as [x|x y z Hxy _ IH]; intros c2 Hf1 H2 Hf2.
  - inversion H2 as [|? y ? Hs _]; subst; [done|]. by destruct (final_no_step x y).
  - inversion H2 as [|? y' ? Hs' H2']; subst; [by destruct (final_no_step c2 y)|].
    rewrite (sstep_deterministic _ _ _ Hxy Hs') in IH. by apply IH.
Qed.

Lemma run_from_S n c c' : next c = Some c' -> run_from (S n) c = run_from n c'.
Proof. intros H. cbn [run_from]. by rewrite H. Qed.

(** ** Files and console *)

Lemma read_write_other p path c w :
  p <> path -> read_file (write_file p c w) path = read_file w path.
Proof. intros H. unfold read_file, write_file. cbn. by destruct (String.eqb_spec p path). Qed.

Lemma read_write_same path c w : read_file (write_file path c w) path = Some c.
Proof. unfold read_file, write_file. cbn. by rewrite String.eqb_refl. Qed.

Lemma print_lines_files ls w : files (print_lines ls w) = files w.
Proof. revert w. induction ls as [|l ls IH]; intros w; [done|]. cbn. by rewrite IH. Qed.

Lemma print_lines_stdout ls w : stdout (print_lines ls w) = (stdout w ++ map Line ls)%list.
Proof.
  revert w. induction ls as [|l ls IH]; intros w; cbn; [by rewrite app_nil_r|].
  rewrite IH. cbn. by rewrite <- app_assoc.
Qed.

(** What one step may do to the world: write an output file, print. *)
Definition grows (w w' : world) : Prop :=
  read_file w' input_path = read_file w input_path /\ exists l, stdout w' = (stdout w ++ l)%list.

Lemma grows_refl w : grows w w.
Proof. split; [done|]. exists []. by rewrite app_nil_r. Qed.

Lemma grows_trans w1 w2 w3 : grows w1 w2 -> grows w2 w3 -> grows w1 w3.
Proof.
  intros [H1 [l1 E1]] [H2 [l2 E2]]. split; [congruence|]. exists (l1 ++ l2).
  by rewrite E2, E1, app_assoc.
Qed.

Lemma grows_write p c w : p <> input_path -> grows w (write_file p c w).
Proof. intros H. split; [by apply read_write_other|]. exists []. by rewrite app_nil_r. Qed.

Lemma grows_print o w : grows w (print o w).
Proof. split; [done|]. by exists [o]. Qed.

Lemma grows_print_lines ls w : grows w (print_lines ls w).
Proof.
  split; [unfold read_file; by rewrite print_lines_files|].
  exists (map Line ls). apply print_lines_stdout.
Qed.

Lemma outputs_not_input :
  cleaned_path <> input_path /\ trend_path <> input_path /\ forecast_path <> input_path.
Proof. split_and!; discriminate. Qed.

Lemma sstep_grows c c' : sstep c c' -> grows (world_of c) (world_of c').
Proof.
  destruct 1; cbn [world_of]; try apply grows_refl; try apply grows_print_lines.
  - repeat (eapply grows_trans; [|apply grows_print]). apply grows_refl.
  all: destruct outputs_not_input as (? & ? & ?).
  - eapply grows_trans; [|apply grows_print]. by apply grows_write.
  - by apply grows_write.
  - by apply grows_write.
Qed.

Lemma rtc_grows c c' : rtc sstep c c' -> grows (world_of c) (world_of c').
Proof.
  induction 1 as [c|c c' c'' Hs _ IH]; [apply grows_refl|].
  eapply grows_trans; [apply sstep_grows|]; done.
Qed.

(** The world after the blocks up to the trend chart. *)
Definition saved_world (w : world) (df df' : frame) : world :=
  print (Line saved_message) (write_file cleaned_path (CsvFile (to_csv df'))
    (print (Repr (head df)) (print (Line (text "None")) (print (Info df) (print (Line info_banner) w))))).

(** The run up to the fit, when the file reads and the cleaning succeeds. *)
Lemma script_to_fit w t df df' s :
  read_file w input_path = Some (CsvFile t) -> read_csv t = Ok df -> clean df = Ok df' ->
  samples_of df' = Ok s ->
  script w = run_from 3 (mkConfig AtFit (write_file trend_path (Image (trend_figure s))
                                          (saved_world w df df')) df' []).
Proof.
  intros Hr Hc Hcl Hs. unfold script.
  erewrite run_from_S by (cbn [next init]; rewrite Hr, Hc; reflexivity).
  erewrite run_from_S by reflexivity.
  erewrite run_from_S by (cbn [next]; rewrite Hcl; reflexivity).
  erewrite run_from_S by reflexivity.
  erewrite run_from_S by (cbn [next]; rewrite Hs; reflexivity).
  reflexivity.
Qed.

(** ** Theorems *)


(** C: at every point of every run the input file is as it was, and the
    console holds what it held before followed by what the script
    printed. *)
Theorem script_preserves_input w c :
  rtc sstep (init w) c ->
  read_file (world_of c) input_path = read_file w input_path /\
  exists l, stdout (world_of c) = stdout w ++ l.
Proof. intros H. exact (rtc_grows _ _ H). Qed.

(** C: when the cleaning keeps no row, the script raises scikit-learn's
    [ValueError] at the fit after it has written [cleaned_data.csv] and
    [obesity_trend.png], and leaves [forecast.png] as it was. *)
Theorem script_no_rows w t df df' :
  read_file w input_path = Some (CsvFile t) -> read_csv t = Ok df -> clean df = Ok df' ->
  rows df' = [] ->
  pc (script w) =
    Raised (ValueError "Found array with 0 sample(s) (shape=(0, 1)) while a minimum of 1 is required by LinearRegression.") /\
  read_file (world_of (script w)) cleaned_path = Some (CsvFile (to_csv df')) /\
  read_file (world_of (script w)) trend_path = Some (Image (trend_figure [])) /\
  read_file (world_of (script w)) forecast_path = read_file w forecast_path.
Proof.
  intros Hr Hc Hcl H0. destruct (clean_get_loc _ _ Hcl) as (iy & ir & Hy & Hir).
  pose proof (samples_of_no_rows _ _ _ Hy Hir H0) as Hs.
  pose proof (forecast_no_rows _ _ _ Hy Hir H0) as Hf.
  rewrite (script_to_fit w t df df' [] Hr Hc Hcl Hs).
  erewrite run_from_S by (cbn [next]; rewrite Hf; reflexivity).
  split_and!; reflexivity.
Qed.

(** C: on an input file that reads as a table whose relabelled header is
    unique and whose cleaning keeps a row, the script prints the banner,
    the summary, ["None"], the head, the saved message, the forecast
    banner and one line per year 2026..2030, writes the cleaned table,
    the trend chart and the forecast chart, and ends normally. *)
Theorem script_forecasts w t df df' :
  read_file w input_path = Some (CsvFile t) -> read_csv t = Ok df ->
  NoDup (map (rename_label main_mapping) (columns df)) ->
  clean df = Ok df' -> rows df' <> [] ->
  exists s preds,
    samples_of df' = Ok s /\ forecast sklearn df' = Ok preds /\
    pc (script w) = Finished /\
    stdout (world_of (script w)) =
      stdout w ++ [Line info_banner; Info df; Line (text "None"); Repr (head df); Line saved_message]
               ++ map Line (forecast_banner :: forecast_output preds) /\
    read_file (world_of (script w)) cleaned_path = Some (CsvFile (to_csv df')) /\
    read_file (world_of (script w)) trend_path = Some (Image (trend_figure s)) /\
    read_file (world_of (script w)) forecast_path = Some (Image (forecast_figure s preds)).
Proof.
  intros Hr Hc Hnd Hcl Hne.
  assert (frame_wf df) as Hwf.
  { split; [by eapply NoDup_map_inv_l|]. by apply (read_csv_rect t). }
  destruct (forecast_total sklearn df' (clean_cleaned _ _ Hwf Hnd Hcl) Hne) as (s & p & Hs & Hp).
  set (preds := (fun y => (y, predict p (inject_Z y))) <$> future_years).
  assert (forecast sklearn df' = Ok preds) as Hf by (apply forecast_Ok; eauto).
  exists s, preds. split_and!; [done|done| | | | |];
    rewrite (script_to_fit w t df df' s Hr Hc Hcl Hs);
    erewrite run_from_S by (cbn [next]; rewrite Hf; reflexivity);
    erewrite run_from_S by reflexivity;
    erewrite run_from_S by (cbn [next]; rewrite Hs; reflexivity); cbn [run_from next pc world_of].
  - reflexivity.
  - cbn [stdout write_file]. rewrite print_lines_stdout. cbn. by rewrite <- !app_assoc.
  - unfold read_file. cbn [files write_file]. rewrite print_lines_files. reflexivity.
  - unfold read_file. cbn [files write_file]. rewrite print_lines_files. reflexivity.
  - apply read_write_same.
Qed.

(** ** Worlds *)

(** The input file of the scenario of the specification: five rows, one
    without a rate, one repeated. *)
Definition spec_world : world :=
  mkWorld [(input_path, CsvFile (text_of_lines
    ["DIM_TIME,RATE_PER_100_N,SEX"; "2018,30.0,BTSX"; "2019,31.0,BTSX"; "2019,31.0,BTSX";
     "2020,,BTSX"; "2021,33.0,BTSX"]))] [].

(** An input file in which every row misses a value. *)
Definition all_missing_world : world :=
  mkWorld [(input_path, CsvFile (text_of_lines ["DIM_TIME,RATE_PER_100_N"; "2019,"; ",32.5"]))] [].

(** ** Witnesses *)

Lemma script_preserves_input_witness :
  read_file (world_of (mkConfig AtInfo spec_world
    (mkFrame ["DIM_TIME"; "RATE_PER_100_N"; "SEX"]
      [[Int 2018; Float 30; Str "BTSX"]; [Int 2019; Float 31; Str "BTSX"];
       [Int 2019; Float 31; Str "BTSX"]; [Int 2020; NaN; Str "BTSX"]; [Int 2021; Float 33; Str "BTSX"]]) []))
    input_path = read_file spec_world input_path /\
  exists l, stdout (world_of (mkConfig AtInfo spec_world
    (mkFrame ["DIM_TIME"; "RATE_PER_100_N"; "SEX"]
      [[Int 2018; Float 30; Str "BTSX"]; [Int 2019; Float 31; Str "BTSX"];
       [Int 2019; Float 31; Str "BTSX"]; [Int 2020; NaN; Str "BTSX"]; [Int 2021; Float 33; Str "BTSX"]]) []))
    = stdout spec_world ++ l.
Proof.
  apply script_preserves_input. apply rtc_once. apply sstep_next. vm_compute. reflexivity.
Defined.

Lemma script_no_rows_witness :
  pc (script all_missing_world) =
    Raised (ValueError "Found array with 0 sample(s) (shape=(0, 1)) while a minimum of 1 is required by LinearRegression.") /\
  read_file (world_of (script all_missing_world)) cleaned_path =
    Some (CsvFile (to_csv (mkFrame ["Year"; "ObesityRate"] []))) /\
  read_file (world_of (script all_missing_world)) trend_path = Some (Image (trend_figure [])) /\
  read_file (world_of (script all_missing_world)) forecast_path = read_file all_missing_world forecast_path.
Proof.
  apply (script_no_rows all_missing_world (text_of_lines ["DIM_TIME,RATE_PER_100_N"; "2019,"; ",32.5"])
           (mkFrame ["DIM_TIME"; "RATE_PER_100_N"] [[Float 2019; NaN]; [NaN; Float (65 # 2)]])).
  all: vm_compute; reflexivity.
Defined.

Lemma script_forecasts_witness :
  exists df df', read_csv (text_of_lines
    ["DIM_TIME,RATE_PER_100_N,SEX"; "2018,30.0,BTSX"; "2019,31.0,BTSX"; "2019,31.0,BTSX";
     "2020,,BTSX"; "2021,33.0,BTSX"]) = Ok df /\ clean df = Ok df' /\
  exists s preds,
    samples_of df' = Ok s /\ forecast sklearn df' = Ok preds /\
    pc (script spec_world) = Finished /\
    stdout (world_of (script spec_world)) =
      stdout spec_world ++ [Line info_banner; Info df; Line (text "None"); Repr (head df); Line saved_message]
               ++ map Line (forecast_banner :: forecast_output preds) /\
    read_file (world_of (script spec_world)) cleaned_path = Some (CsvFile (to_csv df')) /\
    read_file (world_of (script spec_world)) trend_path = Some (Image (trend_figure s)) /\
    read_file (world_of (script spec_world)) forecast_path = Some (Image (forecast_figure s preds)).
Proof.
  do 2 eexists. split; [vm_compute; reflexivity|]. split; [vm_compute; reflexivity|].
  apply (script_forecasts spec_world (text_of_lines
    ["DIM_TIME,RATE_PER_100_N,SEX"; "2018,30.0,BTSX"; "2019,31.0,BTSX"; "2019,31.0,BTSX";
     "2020,,BTSX"; "2021,33.0,BTSX"])).
  - reflexivity.
  - vm_compute. reflexivity.
  - decide_by_compute (NoDup (map (rename_label main_mapping) ["DIM_TIME"; "RATE_PER_100_N"; "SEX"])).
  - vm_compute. reflexivity.
  - vm_compute. discriminate.
Defined.

End Script.
